(** * microblog-gen: post rendering pipeline and publication-date registry

    A shallow embedding of the Go package [microblog] (files [blog.go],
    [blogpost.go], [registry.go]) and the properties of its specification.

    Conventions.
    - Go strings and byte slices are [string]; [s1 +:+ s2] is concatenation.
    - A Go function returning [(T, error)] returns [Result T]; a function
      returning only [error] returns [option error] ([None] is [nil]).
    - Package-level variables ([DefaultOptions], [htmlRenderer],
      [sqlitePool]), the file system and the clock are fields of [World],
      which every effectful function takes and returns.
    - External collaborators (the Markdown library, [text/template], the
      on-disk image of a database file) are fields of [Libs]; every
      theorem holds for all of them unless it names a concrete instance.
    - The constructors [NewBlogPost] and [NewBlog] return [Try T], with
      errors of their own; their calls to [os.Stat] and [filepath.Glob]
      are fields of [Host]. *)

From stdpp Require Import base gmap strings list fin_maps.
From Stdlib Require Import ZArith Ascii String Permutation.

Open Scope string_scope.
Open Scope list_scope.
Open Scope Z_scope.

(** ** Errors *)

(** Failures of the storage layer ([database/sql] with the sqlite driver). *)
Inductive sql_error :=
  | UniqueConstraintFailed   (* "UNIQUE constraint failed: posts.name" *)
  | NoSuchTable              (* "no such table: posts" *)
  | UnableToOpenDatabase     (* the file of a mode=rw connection is missing *)
  | NotADatabase.            (* the file is not empty and not a database *)

(** The errors the package returns, one constructor per message. *)
Inductive error :=
  | ErrReadFile (fp : string)            (* "could not read file %v: %v" *)
  | ErrMultipleHeadings                  (* "more than one heading in blog post" *)
  | ErrUnexpectedNode (ty : string)      (* "unexpected node of type %T" *)
  | ErrNoHeading                         (* "no heading found" *)
  | ErrNoParagraphs                      (* "no paragraphs in blog post" *)
  | ErrUnrecognisedBackend (b : string)  (* "unrecognised backend option %v" *)
  | ErrTemplateParse                     (* "could not open template: %v" *)
  | ErrTemplateTreeEmpty                 (* "template tree is empty" *)
  | ErrTemplateExecute                   (* "could not generate output: %v" *)
  | ErrWriter                            (* the error of [w.Write] *)
  | ErrCreate (fp : string)              (* the error of [os.Create] *)
  | ErrSql (e : sql_error)               (* a storage-layer error, unchanged *)
  | ErrMultipleRows                      (* "expected only one row to be returned, got multiple" *)
  | ErrRenderPost (fp : string) (e : error)
                                         (* "could not render html for post %v: %v" *)
  | PanicNilPointer.                     (* not an error value: the run-time panic of
                                            [dtPosted.Format] on a nil pointer *)

Inductive Result (A : Type) :=
  | Ok (a : A)
  | Err (e : error).
Arguments Ok {A} a.
Arguments Err {A} e.

(** ** Strings *)

(** [strings.NewReplacer(old1, new1, old2, new2, ...)]: the pairs in
    argument order.  All old strings used by the package are non-empty. *)
Definition Replacer := list (string * string).

(** The first pair, in argument order, whose old string starts [s]. *)
Fixpoint lookup_pair (r : Replacer) (s : string) : option (string * string) :=
  match r with
  | [] => None
  | (old, new) :: r' =>
      if String.prefix old s then Some (old, new) else lookup_pair r' s
  end.

(** [Replacer.Replace]: replacements are performed in the order they appear
    in the target string, without overlapping matches; [skip] counts the
    bytes of the current match that are still to be consumed. *)
Fixpoint Replace_from (r : Replacer) (skip : nat) (s : string) : string :=
  match s with
  | EmptyString => EmptyString
  | String c rest =>
      match skip with
      | S k => Replace_from r k rest
      | O =>
          match lookup_pair r s with
          | Some (old, new) => new +:+ Replace_from r (String.length old - 1) rest
          | None => String c (Replace_from r 0 rest)
          end
      end
  end.

Definition Replace (r : Replacer) (s : string) : string := Replace_from r 0 s.

(** [s] without its first [n] bytes. *)
Fixpoint drop_string (n : nat) (s : string) : string :=
  match n, s with
  | O, _ => s
  | S k, String _ rest => drop_string k rest
  | S _, EmptyString => EmptyString
  end.

(** [s] without its first occurrence of [t], if it has one. *)
Fixpoint remove_first (t s : string) : option string :=
  match s with
  | EmptyString => None
  | String c rest =>
      if String.prefix t s then Some (drop_string (String.length t) s)
      else String c <$> remove_first t rest
  end.

(** [s] without its last occurrence of [t], if it has one. *)
Fixpoint remove_last (t s : string) : option string :=
  match s with
  | EmptyString => None
  | String c rest =>
      match remove_last t rest with
      | Some rest' => Some (String c rest')
      | None => if String.prefix t s then Some (drop_string (String.length t) s) else None
      end
  end.

(** ** Paths ([path/filepath], for clean slash-separated paths) *)

(** [split_path s] is [(Some d, b)] when [s = d ++ "/" ++ b] with no slash
    in [b], and [(None, s)] when [s] has no slash. *)
Fixpoint split_path (s : string) : option string * string :=
  match s with
  | EmptyString => (None, EmptyString)
  | String c rest =>
      match split_path rest with
      | (Some d, b) => (Some (String c d), b)
      | (None, b) =>
          if Ascii.eqb c "/"%char then (Some EmptyString, b) else (None, String c b)
      end
  end.

Definition filepath_Dir (path : string) : string :=
  match fst (split_path path) with
  | None => "."
  | Some EmptyString => "/"
  | Some d => d
  end.

Definition filepath_Base (path : string) : string :=
  match snd (split_path path) with
  | EmptyString => "."
  | b => b
  end.

Definition filepath_Join (dir name : string) : string := dir +:+ "/" +:+ name.

(** ** Time *)

Inductive Location := UTC | Zone (zone : string).

(** A [time.Time] by its wall-clock fields in its own location. *)
Record Time := mkTime {
  year : Z; month : Z; day : Z;
  hour : Z; minute : Z; second : Z; nanosecond : Z;
  time_loc : Location
}.

(** The value of a [DATE] column and of [t.Format(time.DateOnly)]: the text
    ["2006-01-02"], kept by its three fields. *)
Record DateOnly := mkDate { date_year : Z; date_month : Z; date_day : Z }.

Definition digit (n : Z) : ascii := ascii_of_nat (48 + Z.to_nat (n mod 10)).

(** [n] in decimal, zero padded, for [0 <= n < 10^width]. *)
Fixpoint pad (width : nat) (n : Z) : string :=
  match width with
  | O => EmptyString
  | S w => pad w (n / 10) +:+ String (digit n) EmptyString
  end.

(** The text of a date in the layout ["2006-01-02"] (years 0 to 9999). *)
Definition DateOnly_text (d : DateOnly) : string :=
  pad 4 (date_year d) +:+ "-" +:+ pad 2 (date_month d) +:+ "-" +:+ pad 2 (date_day d).

(** [t.Format(time.DateOnly)], as the date it denotes: the time of day and
    the location are dropped. *)
Definition Format_DateOnly (t : Time) : DateOnly :=
  mkDate (year t) (month t) (day t).

(** What the sqlite driver scans out of a [DATE] column into a
    [*time.Time]: the date parsed with layout ["2006-01-02"], that is
    midnight in UTC. *)
Definition scan_date (d : DateOnly) : Time :=
  mkTime (date_year d) (date_month d) (date_day d) 0 0 0 0 UTC.

(** The clock of the process: what [time.Now()] returns and what sqlite's
    [CURRENT_DATE] (today in UTC) evaluates to. *)
Record Clock := mkClock { time_Now : Time; CURRENT_DATE : DateOnly }.

(** ** The store: one sqlite database file per collection *)

(** A row of table [posts (name TEXT NOT NULL, dt_posted DATE DEFAULT
    CURRENT_DATE)]. *)
Record row := mkRow { name : string; dt_posted : DateOnly }.

(** The schema objects the package creates and the rows of the table, in
    insertion order: [posts = None] when the table does not exist,
    [name_idx] tells whether the unique index [name_idx ON posts (name)]
    exists. *)
Record Database := mkDatabase { posts : option (list row); name_idx : bool }.

(** A freshly created, empty file is an empty database. *)
Definition empty_db : Database := mkDatabase None false.

Definition names (rows : list row) : list string := name <$> rows.

Inductive file :=
  | FileBytes (content : string)
  | FileSqlite (db : Database).

(** ** Posts, options and handles *)

(** [type RegistryType string]. *)
Definition RegistryType := string.
Definition SQLite : RegistryType := "sqlite".

Record defaultOptions := mkDefaultOptions {
  Template : string;
  Backend : RegistryType;
  EnablePublicationTracking : bool
}.

Record blogPost := mkBlogPost {
  FilePath : string;
  publicationTracking : bool;
  PublicationDate : option Time;
  template : string;
  Heading : string;
  Content : string;
  DtPosted : string
}.

(** A [*sql.DB]: its identity and the file of its data source name
    ["file:<fp>?mode=rw"]. *)
Record sqlDB := mkSqlDB { db_id : nat; db_file : string }.

Record sqliteRegistry := mkSqliteRegistry { DB : sqlDB; location : string }.

Global Instance sqlDB_eq_dec : EqDecision sqlDB.
Proof. solve_decision. Defined.
Global Instance sqliteRegistry_eq_dec : EqDecision sqliteRegistry.
Proof. solve_decision. Defined.

(** ** External collaborators *)

(** The dynamic type of a top-level [ast.Node], as the type switch of
    [WriteHtml] sees it. *)
Inductive NodeKind :=
  | IsHeading                   (* *ast.Heading *)
  | IsParagraph                 (* *ast.Paragraph *)
  | IsOther (tyname : string).  (* anything else, with its %T name *)

(** The result of [template.New("post").Parse(text)]. *)
Inductive ParseOutcome (T : Type) :=
  | ParseFailed                 (* err != nil *)
  | Parsed (tree : option T).   (* tmpl.Tree, possibly nil *)
Arguments ParseFailed {T}.
Arguments Parsed {T} tree.

(** The Markdown library is taken as the specification takes it: a black
    box that turns text into a list of typed top-level nodes and renders a
    node to HTML; the package configures one renderer for all calls. *)
Record Libs := mkLibs {
  (** github.com/gomarkdown/markdown *)
  Node : Type;
  node_kind : Node -> NodeKind;
  heading_Level : Node -> nat;               (* ast.Heading.Level *)
  parser_Parse : string -> list Node;        (* parser.New().Parse(b).GetChildren() *)
  markdown_Render : Node -> string;          (* markdown.Render(n, htmlRenderer), the renderer
                                                built with CommonFlags | HrefTargetBlank *)
  (** text/template *)
  Tree : Type;
  template_Parse : string -> ParseOutcome Tree;
  template_Execute : Tree -> blogPost -> option string;
  (** the bytes [os.ReadFile] sees in a database file *)
  sqlite_bytes : Database -> string
}.

(** [io.Writer]: [Write] returns the new state of the writer and whether it
    succeeded ([false] when its error is not nil). *)
Class Writer (W : Type) := io_Write : W -> string -> W * bool.

(** [bytes.Buffer]: writing appends and never fails. *)
Global Instance Buffer_Writer : Writer string :=
  fun buf s => (buf +:+ s, true).

(** ** The state of the process and of its environment *)

Record World := mkWorld {
  fs : gmap string file;                     (* the files, by path *)
  denied : gset string;                      (* paths [os.Create] cannot create *)
  clock : Clock;
  DefaultOptions : defaultOptions;           (* var DefaultOptions *)
  htmlRenderer : bool;                       (* var htmlRenderer is not nil *)
  sqlitePool : gmap string sqliteRegistry;   (* var sqlitePool, a sync.Map *)
  opened : nat                               (* how many sql.DB objects were opened *)
}.

Definition set_fs (f : gmap string file -> gmap string file) (σ : World) : World :=
  mkWorld (f (fs σ)) (denied σ) (clock σ) (DefaultOptions σ) (htmlRenderer σ)
          (sqlitePool σ) (opened σ).

Definition set_htmlRenderer (b : bool) (σ : World) : World :=
  mkWorld (fs σ) (denied σ) (clock σ) (DefaultOptions σ) b (sqlitePool σ) (opened σ).

Definition set_sqlitePool
    (f : gmap string sqliteRegistry -> gmap string sqliteRegistry) (σ : World) : World :=
  mkWorld (fs σ) (denied σ) (clock σ) (DefaultOptions σ) (htmlRenderer σ)
          (f (sqlitePool σ)) (opened σ).

Definition set_opened (n : nat) (σ : World) : World :=
  mkWorld (fs σ) (denied σ) (clock σ) (DefaultOptions σ) (htmlRenderer σ)
          (sqlitePool σ) n.


(** ** Operating system and database driver *)

(** [os.Create]: creates the file or truncates it when it exists. *)
Definition os_Create (fp : string) (σ : World) : option error * World :=
  if bool_decide (fp ∈ denied σ) then (Some (ErrCreate fp), σ)
  else (None, set_fs <[fp := FileBytes ""]> σ).

(** [sql.Open("sqlite", "file:<fp>?mode=rw")]: no file is touched yet. *)
Definition sql_Open (fp : string) (σ : World) : sqlDB * World :=
  (mkSqlDB (opened σ) fp, set_opened (S (opened σ)) σ).

Definition sqlite_open (f : file) : Result Database :=
  match f with
  | FileBytes EmptyString => Ok empty_db
  | FileBytes _ => Err (ErrSql NotADatabase)
  | FileSqlite db => Ok db
  end.

(** What a statement run through [db] finds in the file of [db]; with
    [mode=rw] the file has to exist. *)
Definition connect (db : sqlDB) (σ : World) : Result Database :=
  match fs σ !! db_file db with
  | None => Err (ErrSql UnableToOpenDatabase)
  | Some f => sqlite_open f
  end.

Definition store (db : sqlDB) (d : Database) (σ : World) : World :=
  set_fs <[db_file db := FileSqlite d]> σ.

(** [CREATE TABLE IF NOT EXISTS posts (...);
     CREATE UNIQUE INDEX IF NOT EXISTS name_idx ON posts (name);]
    The second statement fails on a table that already holds a name twice;
    the table created by the first one then stays. *)
Definition exec_schema (d : Database) : option error * Database :=
  let rows := match posts d with Some rows => rows | None => [] end in
  if name_idx d then (None, mkDatabase (Some rows) true)
  else if bool_decide (NoDup (names rows)) then (None, mkDatabase (Some rows) true)
  else (Some (ErrSql UniqueConstraintFailed), mkDatabase (Some rows) false).

(** [INSERT INTO posts ... VALUES (n, dt) RETURNING dt_posted]: the new
    database and the rows returned. *)
Definition sql_insert (n : string) (dt : DateOnly) (d : Database)
    : Result (Database * list DateOnly) :=
  match posts d with
  | None => Err (ErrSql NoSuchTable)
  | Some rows =>
      if name_idx d && bool_decide (n ∈ names rows)
      then Err (ErrSql UniqueConstraintFailed)
      else Ok (mkDatabase (Some (rows ++ [mkRow n dt])) (name_idx d), [dt])
  end.

(** [SELECT dt_posted FROM posts WHERE name = n]: the rows returned. *)
Definition sql_select (n : string) (d : Database) : Result (list DateOnly) :=
  match posts d with
  | None => Err (ErrSql NoSuchTable)
  | Some rows => Ok (dt_posted <$> filter (fun r => name r = n) rows)
  end.

(** ** registry.go *)

(** [blogPost.GetFilePath] and [blogPost.GetName]: the base name of the file
    is the key of the post in the registry. *)
Definition GetFilePath (p : blogPost) : string := FilePath p.
Definition GetName (p : blogPost) : string := filepath_Base (GetFilePath p).

Definition GetLocation (r : sqliteRegistry) : string := location r.

(** [db.Exec] of the schema statements of [createSqliteRegistry]. *)
Definition db_Exec_schema (db : sqlDB) (σ : World) : option error * World :=
  match connect db σ with
  | Err e => (Some e, σ)
  | Ok d => let '(e, d') := exec_schema d in (e, store db d' σ)
  end.

Definition createSqliteRegistry (directory : string) (σ : World)
    : Result sqliteRegistry * World :=
  let fp := filepath_Join directory "blog.sqlite" in
  match os_Create fp σ with
  | (Some e, σ1) => (Err e, σ1)
  | (None, σ1) =>
      let '(db, σ2) := sql_Open fp σ1 in
      (* initialise table if necessary *)
      match db_Exec_schema db σ2 with
      | (Some e, σ3) => (Err e, σ3)
      | (None, σ3) => (Ok (mkSqliteRegistry db fp), σ3)
      end
  end.

(** [sync.Map.LoadOrStore]: keeps the value already stored for the key. *)
Definition LoadOrStore (directory : string) (r : sqliteRegistry)
    (pool : gmap string sqliteRegistry) : gmap string sqliteRegistry :=
  match pool !! directory with
  | Some _ => pool
  | None => <[directory := r]> pool
  end.

(** [sqlitePoolType.Acquire], run without interruption. *)
Definition Acquire (directory : string) (σ : World) : Result sqliteRegistry * World :=
  match sqlitePool σ !! directory with
  | Some loadedRegistry => (Ok loadedRegistry, σ)
  | None =>
      match createSqliteRegistry directory σ with
      | (Err e, σ1) => (Err e, σ1)
      | (Ok registry, σ1) =>
          (Ok registry, set_sqlitePool (LoadOrStore directory registry) σ1)
      end
  end.

(** [sqliteRegistry.SetPublicationDate]: [t = None] is the nil pointer, for
    which the database default (the current date) is inserted.  The first
    row returned is scanned, a second one is an error. *)
Definition SetPublicationDate (r : sqliteRegistry) (p : blogPost) (t : option Time)
    (σ : World) : Result (option Time) * World :=
  let dt := match t with
            | None => CURRENT_DATE (clock σ)
            | Some t => Format_DateOnly t
            end in
  match connect (DB r) σ with
  | Err e => (Err e, σ)
  | Ok d =>
      match sql_insert (GetName p) dt d with
      | Err e => (Err e, σ)
      | Ok (d', rows) =>
          let σ' := store (DB r) d' σ in
          match rows with
          | [] => (Ok None, σ')
          | [dtPosted] => (Ok (Some (scan_date dtPosted)), σ')
          | _ :: _ :: _ => (Err ErrMultipleRows, σ')
          end
      end
  end.

(** [sqliteRegistry.GetPublicationDate]: [Ok None] is [(nil, nil)], the
    answer when there is no entry for the post. *)
Definition GetPublicationDate (r : sqliteRegistry) (p : blogPost) (σ : World)
    : Result (option Time) :=
  match connect (DB r) σ with
  | Err e => Err e
  | Ok d =>
      match sql_select (GetName p) d with
      | Err e => Err e
      | Ok [] => Ok None                         (* sql.ErrNoRows *)
      | Ok (dtPosted :: _) => Ok (Some (scan_date dtPosted))
      end
  end.

(** The entries of the store of a collection, as a later process would
    find them in the file. *)
Definition entries (fp : string) (σ : World) : list row :=
  match fs σ !! fp with
  | Some (FileSqlite d) => match posts d with Some rows => rows | None => [] end
  | _ => []
  end.

(** ** blogpost.go *)

Definition set_Heading (s : string) (p : blogPost) : blogPost :=
  mkBlogPost (FilePath p) (publicationTracking p) (PublicationDate p) (template p)
             s (Content p) (DtPosted p).

Definition set_Content (s : string) (p : blogPost) : blogPost :=
  mkBlogPost (FilePath p) (publicationTracking p) (PublicationDate p) (template p)
             (Heading p) s (DtPosted p).

Definition set_DtPosted (s : string) (p : blogPost) : blogPost :=
  mkBlogPost (FilePath p) (publicationTracking p) (PublicationDate p) (template p)
             (Heading p) (Content p) s.

(** What successive [WriteString]/[Write] calls leave in a builder. *)
Definition join (l : list string) : string := foldr String.append "" l.

(** The replacer of [WriteHtml]. *)
Definition heading_replacer : Replacer :=
  [("<h2>", ""); ("</h2>", ""); ("<h3>", ""); ("</h3>", "")].

Section blogpost.
Context (L : Libs).

(** [os.ReadFile]; [None] is its error. *)
Definition os_ReadFile (fp : string) (σ : World) : option string :=
  match fs σ !! fp with
  | None => None
  | Some (FileBytes content) => Some content
  | Some (FileSqlite d) => Some (sqlite_bytes L d)
  end.

(** The loop of [WriteHtml] over the top-level nodes: [heading] and
    [paragraphs] are its two variables. *)
Fixpoint scan_nodes (nodes : list (Node L)) (heading : option (Node L))
    (paragraphs : list (Node L)) : Result (option (Node L) * list (Node L)) :=
  match nodes with
  | [] => Ok (heading, paragraphs)
  | c :: rest =>
      match node_kind L c with
      | IsHeading =>
          match heading with
          | Some _ => Err ErrMultipleHeadings
          | None => scan_nodes rest (Some c) paragraphs
          end
      | IsParagraph => scan_nodes rest heading (paragraphs ++ [c])
      | IsOther ty => Err (ErrUnexpectedNode ty)
      end
  end.

(** The block "add publication date" of [WriteHtml]: the value of
    [dtPosted] after it. *)
Definition resolve_dtPosted (p : blogPost) (σ : World) : Result (option Time) * World :=
  if EnablePublicationTracking (DefaultOptions σ) || publicationTracking p then
    if bool_decide (Backend (DefaultOptions σ) = SQLite) then
      match Acquire (filepath_Dir (GetFilePath p)) σ with
      | (Err e, σ1) => (Err e, σ1)
      | (Ok backend, σ1) =>
          match GetPublicationDate backend p σ1 with
          | Err e => (Err e, σ1)
          | Ok (Some dtPosted) => (Ok (Some dtPosted), σ1)
          | Ok None =>                         (* hasn't been published before *)
              SetPublicationDate backend p None σ1
          end
      end
    else (Err (ErrUnrecognisedBackend (Backend (DefaultOptions σ))), σ)
  else (Ok (Some (time_Now (clock σ))), σ).

(** [blogPost.WriteHtml]: the error, the post with the fields the call
    assigned, the writer and the world after the call.  [parser.New()] never
    returns nil, so the [log.Fatal] branch is left out; [PanicNilPointer]
    stands for [dtPosted.Format] on a nil pointer. *)
Definition WriteHtml {W} `{Writer W} (p : blogPost) (w : W) (σ : World)
    : option error * blogPost * W * World :=
  match os_ReadFile (FilePath p) σ with
  | None => (Some (ErrReadFile (FilePath p)), p, w, σ)
  | Some file =>
      let σ := set_htmlRenderer true σ in
      let nodes := parser_Parse L file in
      match scan_nodes nodes None [] with
      | Err e => (Some e, p, w, σ)
      | Ok (None, _) => (Some ErrNoHeading, p, w, σ)
      | Ok (Some heading, paragraphs) =>
          let p := set_Heading (Replace heading_replacer (markdown_Render L heading)) p in
          match paragraphs with
          | [] => (Some ErrNoParagraphs, p, w, σ)
          | _ :: _ =>
              let p := set_Content (join (markdown_Render L <$> paragraphs)) p in
              match resolve_dtPosted p σ with
              | (Err e, σ) => (Some e, p, w, σ)
              | (Ok None, σ) => (Some PanicNilPointer, p, w, σ)
              | (Ok (Some dtPosted), σ) =>
                  let p := set_DtPosted (DateOnly_text (Format_DateOnly dtPosted)) p in
                  match template_Parse L (template p) with
                  | ParseFailed => (Some ErrTemplateParse, p, w, σ)
                  | Parsed None => (Some ErrTemplateTreeEmpty, p, w, σ)
                  | Parsed (Some tmpl) =>
                      match template_Execute L tmpl p with
                      | None => (Some ErrTemplateExecute, p, w, σ)
                      | Some buf =>
                          let '(w', ok) := io_Write w buf in
                          (if ok then None else Some ErrWriter, p, w', σ)
                      end
                  end
              end
          end
      end
  end.

(** ** blog.go *)

Record blog := mkBlog { Posts : list blogPost; Directory : string }.

(** The loop of [RenderPosts], all posts writing to [htmlBuffer]. *)
Fixpoint RenderPosts_loop (posts : list blogPost) (htmlBuffer : string) (σ : World)
    : (string * option error) * list blogPost * World :=
  match posts with
  | [] => ((htmlBuffer, None), [], σ)
  | post :: rest =>
      match WriteHtml post htmlBuffer σ with
      | (Some err, post', _, σ') =>
          (("", Some (ErrRenderPost (GetFilePath post) err)), post' :: rest, σ')
      | (None, post', htmlBuffer', σ') =>
          let '(r, rest', σ'') := RenderPosts_loop rest htmlBuffer' σ' in
          (r, post' :: rest', σ'')
      end
  end.

(** [blog.RenderPosts]: the bytes and the error returned, the posts and
    the world after the call. *)
Definition RenderPosts (b : blog) (σ : World)
    : (string * option error) * blog * World :=
  let '(r, posts', σ') := RenderPosts_loop (Posts b) "" σ in
  (r, mkBlog posts' (Directory b), σ').

(** The state the goroutines of [RenderPostsAsync] share: the slots, the
    first error kept by the [errgroup.Group], the posts and the world. *)
Record group := mkGroup {
  bufSlice : list string;
  first_err : option error;
  g_posts : list blogPost;
  g_world : World
}.

(** The goroutine of the post at index [i], run to completion. *)
Definition run_task (g : group) (i : nat) : group :=
  match g_posts g !! i with
  | None => g
  | Some p =>
      match WriteHtml p "" (g_world g) with
      | (Some err, p', _, σ') =>
          mkGroup (bufSlice g)
                  (match first_err g with Some e => Some e | None => Some err end)
                  (<[i := p']> (g_posts g)) σ'
      | (None, p', buf, σ') =>
          mkGroup (<[i := buf]> (bufSlice g)) (first_err g)
                  (<[i := p']> (g_posts g)) σ'
      end
  end.

(** [blog.RenderPostsAsync]; [sched] is the order in which the goroutines
    run, each of them without interruption by another. *)
Definition RenderPostsAsync (sched : list nat) (b : blog) (σ : World)
    : (string * option error) * blog * World :=
  let g0 := mkGroup (replicate (List.length (Posts b)) "") None (Posts b) σ in
  let g := foldl run_task g0 sched in
  match first_err g with
  | Some _ => (("", None), mkBlog (g_posts g) (Directory b), g_world g)
  | None => ((join (bufSlice g), None), mkBlog (g_posts g) (Directory b), g_world g)
  end.

End blogpost.

(** ** Two goroutines in [Acquire] *)

(** Where a goroutine stands in [Acquire]: the calls [pool.Load],
    [createSqliteRegistry] and [pool.LoadOrStore] are its three steps. *)
Inductive acquire_pc :=
  | AtLoad
  | AtCreate
  | AtLoadOrStore (registry : sqliteRegistry)
  | Returned (r : Result sqliteRegistry).

Definition acquire_step (directory : string) (pc : acquire_pc) (σ : World)
    : acquire_pc * World :=
  match pc with
  | AtLoad =>
      match sqlitePool σ !! directory with
      | Some loadedRegistry => (Returned (Ok loadedRegistry), σ)
      | None => (AtCreate, σ)
      end
  | AtCreate =>
      match createSqliteRegistry directory σ with
      | (Err e, σ1) => (Returned (Err e), σ1)
      | (Ok registry, σ1) => (AtLoadOrStore registry, σ1)
      end
  | AtLoadOrStore registry =>
      (Returned (Ok registry), set_sqlitePool (LoadOrStore directory registry) σ)
  | Returned r => (Returned r, σ)
  end.

(** Two goroutines calling [Acquire directory]; of a schedule, [true] lets
    the first one take its next step and [false] the second one. *)
Definition race_step (directory : string) (st : acquire_pc * acquire_pc * World)
    (first : bool) : acquire_pc * acquire_pc * World :=
  let '(pc1, pc2, σ) := st in
  if first
  then let '(pc1', σ') := acquire_step directory pc1 σ in (pc1', pc2, σ')
  else let '(pc2', σ') := acquire_step directory pc2 σ in (pc1, pc2', σ').

Definition race (directory : string) (sched : list bool) (σ : World)
    : acquire_pc * acquire_pc * World :=
  foldl (race_step directory) (AtLoad, AtLoad, σ) sched.

(** ** A small instance of the collaborators, for concrete runs

    The Markdown stand-in reads one block per line: ["## text"] is a heading
    of level 2, ["- text"] a list, any other non-empty line a paragraph;
    inline text is passed through unchanged.  Blocks are rendered the way
    the HTML renderer of the library wraps them ([<h2>text</h2>],
    [<p>text</p>], each followed by a newline).  The template stand-in
    knows literal text and the actions [{{.Heading}}], [{{.DtPosted}}],
    [{{.Content}}] and [{{.FilePath}}]. *)
Module Toy.

Inductive node :=
  | THeading (level : nat) (inner : string)
  | TParagraph (inner : string)
  | TList (inner : string).

Definition nl : string := String (ascii_of_nat 10) EmptyString.

Fixpoint lines (s cur : string) : list string :=
  match s with
  | EmptyString => [cur]
  | String c rest =>
      if Ascii.eqb c (ascii_of_nat 10) then cur :: lines rest EmptyString
      else lines rest (cur +:+ String c EmptyString)
  end.

Fixpoint hashes (s : string) : nat * string :=
  match s with
  | String c rest =>
      if Ascii.eqb c "#"%char then let '(n, r) := hashes rest in (S n, r) else (O, s)
  | EmptyString => (O, s)
  end.

Definition block (line : string) : list node :=
  match line with
  | EmptyString => []
  | _ =>
      match hashes line with
      | (S n, String " " text) => [THeading (S n) text]
      | _ =>
          if String.prefix "- " line
          then [TList (String.substring 2 (String.length line - 2) line)]
          else [TParagraph line]
      end
  end.

Definition parse (s : string) : list node := flat_map block (lines s EmptyString).

Definition kind (n : node) : NodeKind :=
  match n with
  | THeading _ _ => IsHeading
  | TParagraph _ => IsParagraph
  | TList _ => IsOther "*ast.List"
  end.

Definition level (n : node) : nat :=
  match n with THeading l _ => l | _ => O end.

Definition render (n : node) : string :=
  match n with
  | THeading l inner =>
      "<h" +:+ pad 1 (Z.of_nat l) +:+ ">" +:+ inner
      +:+ "</h" +:+ pad 1 (Z.of_nat l) +:+ ">" +:+ nl
  | TParagraph inner => "<p>" +:+ inner +:+ "</p>" +:+ nl
  | TList inner => "<ul>" +:+ nl +:+ "<li>" +:+ inner +:+ "</li>" +:+ nl +:+ "</ul>" +:+ nl
  end.

Inductive piece := Lit (text : string) | Field (field : string).

(** [cur] is the text read since the last delimiter, [action] tells
    whether it stands inside [{{.] ... [}}]. *)
Fixpoint tmpl_parse (s cur : string) (action : bool) : option (list piece) :=
  match s with
  | EmptyString => if action then None else Some [Lit cur]
  | String c rest =>
      if String.prefix "{{." s then
        if action then None
        else match rest with
             | String _ (String _ rest') => cons (Lit cur) <$> tmpl_parse rest' EmptyString true
             | _ => None
             end
      else if String.prefix "}}" s then
        if action
        then match rest with
             | String _ rest' => cons (Field cur) <$> tmpl_parse rest' EmptyString false
             | _ => None
             end
        else tmpl_parse rest (cur +:+ String c EmptyString) action
      else tmpl_parse rest (cur +:+ String c EmptyString) action
  end.

Definition Parse (s : string) : ParseOutcome (list piece) :=
  match tmpl_parse s EmptyString false with
  | None => ParseFailed
  | Some t => Parsed (Some t)
  end.

Definition field_of (p : blogPost) (f : string) : option string :=
  if String.eqb f "Heading" then Some (Heading p)
  else if String.eqb f "DtPosted" then Some (DtPosted p)
  else if String.eqb f "Content" then Some (Content p)
  else if String.eqb f "FilePath" then Some (FilePath p)
  else None.

Fixpoint Execute (t : list piece) (p : blogPost) : option string :=
  match t with
  | [] => Some EmptyString
  | Lit text :: t' => String.append text <$> Execute t' p
  | Field f :: t' =>
      match field_of p f with
      | None => None
      | Some v => String.append v <$> Execute t' p
      end
  end.

Definition libs : Libs :=
  mkLibs node kind level parse render (list piece) Parse Execute
         (fun _ => "SQLite format 3").

Definition midday : Time := mkTime 2025 3 9 12 30 0 0 (Zone "Local").
Definition today : DateOnly := mkDate 2025 3 9.

(** The directory [blog]: a well-formed post, a post made of a list only,
    a post headed at level 1, a post without paragraph and a post whose
    heading holds a tag of its own; tracking is off by default, nothing was
    acquired yet. *)
Definition world : World :=
  mkWorld (<["blog/001_a.md" :=
               FileBytes ("## Hello <em>world</em>" +:+ nl +:+ "Some <em>text</em>.")]>
           (<["blog/002_b.md" := FileBytes "- item"]>
           (<["blog/003_c.md" := FileBytes ("# Title" +:+ nl +:+ "Body.")]>
           (<["blog/004_d.md" := FileBytes "## Alone"]>
           (<["blog/005_e.md" :=
                FileBytes ("## Big <h3>small</h3>" +:+ nl +:+ "Text.")]> ∅)))))
          ∅ (mkClock midday today)
          (mkDefaultOptions "<div>{{.Heading}}|{{.DtPosted}}|{{.Content}}</div>" SQLite false)
          false ∅ 0.

Definition post (fp : string) (tracking : bool) : blogPost :=
  mkBlogPost fp tracking None (Template (DefaultOptions world))
             EmptyString EmptyString EmptyString.

End Toy.

(** * Definitions for the properties *)

(** ** The store and the registry *)

(** The registry has the unique index on the name column. *)
Definition has_name_idx (r : sqliteRegistry) (σ : World) : Prop :=
  exists d, connect (DB r) σ = Ok d /\ name_idx d = true.

(** The store of the registry has the table and the index, and no name
    twice: each post has at most one publication date. *)
Definition store_ok (r : sqliteRegistry) (σ : World) : Prop :=
  exists d rows, connect (DB r) σ = Ok d /\ posts d = Some rows /\
                 name_idx d = true /\ NoDup (names rows).

(** The time of day of [t] is midnight in UTC. *)
Definition midnight_UTC (t : Time) : Prop :=
  hour t = 0 /\ minute t = 0 /\ second t = 0 /\ nanosecond t = 0 /\ time_loc t = UTC.

(** The database [createSqliteRegistry] leaves in the file. *)
Definition fresh_db : Database := mkDatabase (Some []) true.

(** The tags that wrap a rendered heading of level [l]. *)
Definition open_tag (l : nat) : string := "<h" +:+ pad 1 (Z.of_nat l) +:+ ">".

Definition close_tag (l : nat) : string := "</h" +:+ pad 1 (Z.of_nat l) +:+ ">".

(** The heading text as the specification words it: the rendered heading
    of level [l] without the tags of its wrapper, the first opening tag and
    the last closing tag; everything else stays. *)
Definition strip_heading_wrapper (l : nat) (html : string) : string :=
  match remove_first (open_tag l) html with
  | None => html
  | Some rest =>
      match remove_last (close_tag l) rest with
      | None => rest
      | Some inner => inner
      end
  end.

(** No old string of the replacer of [WriteHtml] occurs in [s]. *)
Fixpoint tag_free (s : string) : bool :=
  match s with
  | EmptyString => true
  | String _ rest =>
      match lookup_pair heading_replacer s with
      | Some _ => false
      | None => tag_free rest
      end
  end.

(** [s] has no byte ["<"]. *)
Fixpoint no_lt (s : string) : bool :=
  match s with
  | EmptyString => true
  | String c rest => negb (Ascii.eqb c "<"%char) && no_lt rest
  end.

(** The condition of the block "add publication date" of [WriteHtml]. *)
Definition tracking (p : blogPost) (σ : World) : bool :=
  EnablePublicationTracking (DefaultOptions σ) || publicationTracking p.

(** The key of the pool for the collection of a post, and the file of its
    store. *)
Definition directory_of (p : blogPost) : string := filepath_Dir (GetFilePath p).

Definition store_of (p : blogPost) : string :=
  filepath_Join (directory_of p) "blog.sqlite".

(** The failures of [WriteHtml] that come after the date was resolved. *)
Definition late_error (e : error) : Prop :=
  e = ErrTemplateParse \/ e = ErrTemplateTreeEmpty \/ e = ErrTemplateExecute \/ e = ErrWriter.

(** The world after the first tracked render in a directory: the registry
    is in the pool and its store holds the one entry of the post. *)
Definition first_tracked (p : blogPost) (σ : World) : World :=
  mkWorld (<[store_of p := FileSqlite (mkDatabase
               (Some [mkRow (GetName p) (CURRENT_DATE (clock σ))]) true)]> (fs σ))
          (denied σ) (clock σ) (DefaultOptions σ) (htmlRenderer σ)
          (<[directory_of p := mkSqliteRegistry (mkSqlDB (opened σ) (store_of p)) (store_of p)]>
             (sqlitePool σ))
          (S (opened σ)).


(** The value of [dtPosted] for a post, read off the world. *)
Definition date_view (p : blogPost) (σ : World) : Result (option Time) :=
  if tracking p σ then
    if bool_decide (Backend (DefaultOptions σ) = SQLite) then
      match sqlitePool σ !! directory_of p with
      | None =>
          if bool_decide (store_of p ∈ denied σ) then Err (ErrCreate (store_of p))
          else Ok (Some (scan_date (CURRENT_DATE (clock σ))))
      | Some r =>
          match connect (DB r) σ with
          | Err e => Err e
          | Ok d =>
              match posts d with
              | None => Err (ErrSql NoSuchTable)
              | Some rows =>
                  match filter (fun r => name r = GetName p) rows with
                  | [] => Ok (Some (scan_date (CURRENT_DATE (clock σ))))
                  | r0 :: _ => Ok (Some (scan_date (dt_posted r0)))
                  end
              end
          end
      end
    else Err (ErrUnrecognisedBackend (Backend (DefaultOptions σ)))
  else Ok (Some (time_Now (clock σ))).

(** ** One render and a batch of renders *)

Section derived.
Context (L : Libs).

(** The cases of the type switch of [WriteHtml]. *)
Definition is_heading (n : Node L) : bool :=
  match node_kind L n with IsHeading => true | _ => false end.

Definition is_paragraph (n : Node L) : bool :=
  match node_kind L n with IsParagraph => true | _ => false end.

Definition supported (n : Node L) : bool := is_heading n || is_paragraph n.

Definition headings (nodes : list (Node L)) : list (Node L) :=
  List.filter is_heading nodes.

Definition paragraphs (nodes : list (Node L)) : list (Node L) :=
  List.filter is_paragraph nodes.

(** How many headings the loop has seen when its variable is [heading]. *)
Definition already (heading : option (Node L)) : nat :=
  match heading with Some _ => 1%nat | None => 0%nat end.

(** The part of [WriteHtml] between reading the file and resolving the
    date: its error and the post with the fields assigned so far. *)
Definition extract (file : string) (p : blogPost) : option error * blogPost :=
  match scan_nodes L (parser_Parse L file) None [] with
  | Err e => (Some e, p)
  | Ok (None, _) => (Some ErrNoHeading, p)
  | Ok (Some heading, pars) =>
      let p := set_Heading (Replace heading_replacer (markdown_Render L heading)) p in
      match pars with
      | [] => (Some ErrNoParagraphs, p)
      | _ :: _ => (None, set_Content (join (markdown_Render L <$> pars)) p)
      end
  end.

(** The part of [WriteHtml] after the date was resolved. *)
Definition finish {W} `{Writer W} (p : blogPost) (w : W) (dtPosted : Time)
    : option error * blogPost * W :=
  let p := set_DtPosted (DateOnly_text (Format_DateOnly dtPosted)) p in
  match template_Parse L (template p) with
  | ParseFailed => (Some ErrTemplateParse, p, w)
  | Parsed None => (Some ErrTemplateTreeEmpty, p, w)
  | Parsed (Some tmpl) =>
      match template_Execute L tmpl p with
      | None => (Some ErrTemplateExecute, p, w)
      | Some buf =>
          let '(w', ok) := io_Write w buf in
          (if ok then None else Some ErrWriter, p, w')
      end
  end.

(** Parsing and executing the template of a post whose fields are set. *)
Definition render_template (p : blogPost) : Result string :=
  match template_Parse L (template p) with
  | ParseFailed => Err ErrTemplateParse
  | Parsed None => Err ErrTemplateTreeEmpty
  | Parsed (Some tmpl) =>
      match template_Execute L tmpl p with
      | None => Err ErrTemplateExecute
      | Some buf => Ok buf
      end
  end.

(** The bytes [WriteHtml] writes for a post in a world, if it succeeds. *)
Definition html_of (p : blogPost) (σ : World) : option string :=
  match os_ReadFile L (FilePath p) σ with
  | None => None
  | Some file =>
      match extract file p with
      | (Some _, _) => None
      | (None, p1) =>
          match date_view p σ with
          | Ok (Some dt) =>
              match render_template
                      (set_DtPosted (DateOnly_text (Format_DateOnly dt)) p1) with
              | Ok html => Some html
              | Err _ => None
              end
          | _ => None
          end
      end
  end.







End derived.

(** The error [WriteHtml] returns. *)
Definition error_of {W} `{Writer W} (L : Libs) (p : blogPost) (w : W) (σ : World)
    : option error :=
  fst (fst (fst (WriteHtml L p w σ))).

(** The post after [WriteHtml]. *)
Definition post_of {W} `{Writer W} (L : Libs) (p : blogPost) (w : W) (σ : World)
    : blogPost :=
  snd (fst (fst (WriteHtml L p w σ))).

(** One error per defect of the document, each defect taken on its own. *)
Definition distinct_error_per_defect : Prop :=
  forall (L : Libs) (p : blogPost) (w : string) (σ : World) (file : string),
    os_ReadFile L (FilePath p) σ = Some file ->
    let nodes := parser_Parse L file in
    (List.length (headings L nodes) = 0%nat -> error_of L p w σ = Some ErrNoHeading) /\
    ((2 <= List.length (headings L nodes))%nat ->
       error_of L p w σ = Some ErrMultipleHeadings) /\
    (List.length (headings L nodes) = 1%nat -> List.length (paragraphs L nodes) = 0%nat ->
       error_of L p w σ = Some ErrNoParagraphs) /\
    (forall c ty, c ∈ nodes -> node_kind L c = IsOther ty ->
       error_of L p w σ = Some (ErrUnexpectedNode ty)).

(** The heading text is the rendered heading without its wrapper, at every
    level of heading. *)
Definition heading_wrapper_stripped : Prop :=
  forall (L : Libs) (p : blogPost) (w : string) (σ : World) (file : string) (h : Node L),
    os_ReadFile L (FilePath p) σ = Some file ->
    forallb (supported L) (parser_Parse L file) = true ->
    headings L (parser_Parse L file) = [h] ->
    Heading (post_of L p w σ)
    = strip_heading_wrapper (heading_Level L h) (markdown_Render L h).

(** ** Concrete worlds *)

(** A registry of the directory [blog] as [createSqliteRegistry] returns it
    in a fresh process, and the world after acquiring it and publishing
    the first post on 2024-01-01. *)
Definition blog_registry : sqliteRegistry :=
  mkSqliteRegistry (mkSqlDB 0 "blog/blog.sqlite") "blog/blog.sqlite".

Definition new_year : Time := mkTime 2024 1 1 1 1 1 1 UTC.

Definition published_world : World :=
  snd (SetPublicationDate blog_registry (Toy.post "blog/001_a.md" true) (Some new_year)
         (snd (Acquire "blog" Toy.world))).

(** A collection whose store already records, from an earlier build, that
    post [001_a.md] was published on 2024-01-01. *)
Definition rebuilt_world : World :=
  set_fs <["blog/blog.sqlite" :=
             FileSqlite (mkDatabase (Some [mkRow "001_a.md" (mkDate 2024 1 1)]) true)]>
         Toy.world.

(** A tracked post whose template names a field no post has. *)
Definition broken_post : blogPost :=
  mkBlogPost "blog/001_a.md" true None "<h2>{{.Title}}</h2>"
             EmptyString EmptyString EmptyString.


(** The collection of directory [blog] with its post made of a list. *)
Definition list_blog : blog :=
  mkBlog [Toy.post "blog/001_a.md" false; Toy.post "blog/002_b.md" false] "blog".

(** * Definitions for the further properties *)


(** ** Sequences of registry operations *)

(** [SetPublicationDate] called for each post and date of [ops] in turn,
    whatever each call returns. *)
Definition publish_all (r : sqliteRegistry) (ops : list (blogPost * option Time)) (σ : World)
    : World :=
  foldl (fun σ op => snd (SetPublicationDate r (fst op) (snd op) σ)) σ ops.


(** ** Kinds of failure of [WriteHtml] *)

(** The failures before the date is resolved: the file cannot be read, or
    the document has not the shape of a post. *)
Definition early_error (e : error) : Prop :=
  (exists fp, e = ErrReadFile fp) \/ e = ErrMultipleHeadings \/
  (exists ty, e = ErrUnexpectedNode ty) \/ e = ErrNoHeading \/ e = ErrNoParagraphs.

(** The failures of resolving the date. *)
Definition registry_error (e : error) : Prop :=
  (exists fp, e = ErrCreate fp) \/ (exists s, e = ErrSql s) \/
  (exists b, e = ErrUnrecognisedBackend b).

(** Two posts that differ at most in the fields [WriteHtml] assigns. *)
Definition same_static (p q : blogPost) : Prop :=
  FilePath p = FilePath q /\ publicationTracking p = publicationTracking q /\
  PublicationDate p = PublicationDate q /\ template p = template q.

(** ** Dates on record *)

(** The publication date of a post is on record: the registry of its
    directory is in the pool and the store has an entry for its name. *)
Definition pinned (p : blogPost) (σ : World) : Prop :=
  exists r d rows,
    sqlitePool σ !! directory_of p = Some r /\ connect (DB r) σ = Ok d /\
    posts d = Some rows /\ GetName p ∈ names rows.

(** ** Constructors and options (blogpost.go, blog.go) *)

(** The errors of [NewBlogPost], [NewBlog] and the options. *)
Inductive new_error :=
  | ErrFileNotExist (fp : string)       (* "file %v does not exist" *)
  | ErrFileInfo (fp : string)           (* "could not acquire file info for %v: %v" *)
  | ErrOsReadFile (fp : string)         (* the error of [os.ReadFile], unchanged *)
  | ErrDirectoryNotExist (d : string)   (* "directory %v does not exist" *)
  | ErrNotDirectory (d : string)        (* "%v must be a directory" *)
  | ErrGlob (d : string)                (* "failed to search for markdown files in %v: %v" *)
  | ErrNoMarkdown                       (* "there must be at least .md file in the directory" *)
  | ErrNewBlogPost (e : new_error).     (* "could not create blog object for %v: %v" *)

(** The pair a constructor returns: the object, or nil and an error. *)
Inductive Try (A : Type) :=
  | Made (a : A)
  | Failed (e : new_error).
Arguments Made {A} a.
Arguments Failed {A} e.

(** What the constructors look at in the result of [os.Stat]: the error is
    [os.ErrNotExist] or another one, or the info is that of a directory or
    of something else. *)
Inductive stat := StatDir | StatFile | StatNotExist | StatError.

(** The calls of the constructors into [os] and [path/filepath]. *)
Record Host := mkHost {
  os_Stat : string -> World -> stat;
  (** [None] is [filepath.ErrBadPattern] *)
  filepath_Glob : string -> World -> option (list string)
}.

(** An option: a function from a pointer to the post to an error. *)
Definition post_option := blogPost -> World -> Try blogPost.

Definition set_template (s : string) (p : blogPost) : blogPost :=
  mkBlogPost (FilePath p) (publicationTracking p) (PublicationDate p) s
             (Heading p) (Content p) (DtPosted p).

Definition set_publicationTracking (b : bool) (p : blogPost) : blogPost :=
  mkBlogPost (FilePath p) b (PublicationDate p) (template p)
             (Heading p) (Content p) (DtPosted p).

(** Assignment to [DefaultOptions.Template]. *)
Definition set_Template (t : string) (σ : World) : World :=
  mkWorld (fs σ) (denied σ) (clock σ)
          (mkDefaultOptions t (Backend (DefaultOptions σ))
                            (EnablePublicationTracking (DefaultOptions σ)))
          (htmlRenderer σ) (sqlitePool σ) (opened σ).

Definition GetDirectory (b : blog) : string := Directory b.

Definition GetBlogPosts (b : blog) : list blogPost := Posts b.

Section constructors.
Context (L : Libs) (E : Host).

Definition WithTemplateString (s : string) : post_option :=
  fun b _ => Made (set_template s b).

Definition WithTemplateFile (fp : string) : post_option :=
  fun b σ =>
    match os_ReadFile L fp σ with
    | None => Failed (ErrOsReadFile fp)
    | Some content => Made (set_template content b)
    end.

Definition WithPublicationTracking : post_option :=
  fun b _ => Made (set_publicationTracking true b).

(** The loop of [NewBlogPost] over its options. *)
Fixpoint apply_options (options : list post_option) (b : blogPost) (σ : World)
    : Try blogPost :=
  match options with
  | [] => Made b
  | o :: rest =>
      match o b σ with
      | Failed err => Failed err
      | Made b => apply_options rest b σ
      end
  end.

Definition NewBlogPost (fp : string) (options : list post_option) (σ : World)
    : Try blogPost :=
  match os_Stat E fp σ with
  | StatNotExist => Failed (ErrFileNotExist fp)
  | StatError => Failed (ErrFileInfo fp)
  | StatDir | StatFile =>
      let b := mkBlogPost fp false None "" "" "" "" in
      let b := set_template (Template (DefaultOptions σ)) b in
      apply_options options b σ
  end.

(** [Markdown]: the content of the file of the post. *)
Definition Markdown (p : blogPost) (σ : World) : Result string :=
  match os_ReadFile L (FilePath p) σ with
  | None => Err (ErrReadFile (FilePath p))
  | Some file => Ok file
  end.

(** The loop of [NewBlog] over the Markdown files. *)
Fixpoint NewBlog_loop (markdownFiles : list string) (postOptions : list post_option)
    (σ : World) : Try (list blogPost) :=
  match markdownFiles with
  | [] => Made []
  | md :: rest =>
      match NewBlogPost md postOptions σ with
      | Failed err => Failed (ErrNewBlogPost err)
      | Made post =>
          match NewBlog_loop rest postOptions σ with
          | Failed err => Failed err
          | Made blogPosts => Made (post :: blogPosts)
          end
      end
  end.

Definition NewBlog (directory : string) (postOptions : list post_option) (σ : World)
    : Try blog :=
  match os_Stat E directory σ with
  | StatNotExist => Failed (ErrDirectoryNotExist directory)
  | StatError => Failed (ErrFileInfo directory)
  | StatFile => Failed (ErrNotDirectory directory)
  | StatDir =>
      match filepath_Glob E (filepath_Join directory "*.md") σ with
      | None => Failed (ErrGlob directory)
      | Some [] => Failed ErrNoMarkdown
      | Some markdownFiles =>
          match NewBlog_loop markdownFiles postOptions σ with
          | Failed err => Failed err
          | Made blogPosts => Made (mkBlog blogPosts directory)
          end
      end
  end.

(** The options the package exports. *)
Definition exported (o : post_option) : Prop :=
  (exists s, o = WithTemplateString s) \/ (exists fp, o = WithTemplateFile fp) \/
  o = WithPublicationTracking.


End constructors.



(** A name of a directory entry: not empty, no separator. *)
Definition entry_name (n : string) : Prop := n <> "" /\ split_path n = (None, n).

Definition toy_files : list string :=
  ["blog/001_a.md"; "blog/002_b.md"; "blog/003_c.md"; "blog/004_d.md"; "blog/005_e.md"].

(** A host for the collection of [Toy.world]: [blog] is a directory, and a
    search for its Markdown files finds those of the five posts that are
    there. *)
Definition toy_host : Host :=
  mkHost (fun fp σ =>
            if bool_decide (fp = "blog") then StatDir
            else match fs σ !! fp with Some _ => StatFile | None => StatNotExist end)
         (fun pattern σ =>
            if bool_decide (pattern = "blog/*.md")
            then Some (List.filter (fun fp => bool_decide (is_Some (fs σ !! fp))) toy_files)
            else Some []).



(** * Properties *)

(** ** The store *)

Lemma connect_store db d σ : connect db (store db d σ) = Ok d.
Proof. unfold connect, store. simpl. by rewrite lookup_insert_eq. Qed.

Lemma entries_store db d σ :
  entries (db_file db) (store db d σ) = match posts d with Some rows => rows | None => [] end.
Proof. unfold entries, store. simpl. by rewrite lookup_insert_eq. Qed.

Lemma sql_select_filter n d rows :
  posts d = Some rows ->
  sql_select n d = Ok (dt_posted <$> filter (fun r => name r = n) rows).
Proof. intros H. unfold sql_select. by rewrite H. Qed.

(** A name has a row exactly when the filter of [sql_select] keeps one. *)
Lemma filter_name_nil n (rows : list row) :
  filter (fun r => name r = n) rows = [] <-> n ∉ names rows.
Proof.
  induction rows as [|r rows IH].
  - split; [intros _ H; inversion H | done].
  - rewrite filter_cons. unfold names in *. rewrite fmap_cons, not_elem_of_cons.
    destruct (decide (name r = n)) as [Heq|Hne].
    + split; [done | intros [H _]; congruence].
    + rewrite IH. split; [intros H; split; [congruence | done] | by intros [_ H]].
Qed.


Lemma GetPublicationDate_Some r p σ t :
  GetPublicationDate r p σ = Ok (Some t) ->
  exists d rows, connect (DB r) σ = Ok d /\ posts d = Some rows /\
                 GetName p ∈ names rows /\ midnight_UTC t.
Proof.
  unfold GetPublicationDate. destruct (connect (DB r) σ) as [d|e] eqn:Hc; [|done].
  unfold sql_select. destruct (posts d) as [rows|] eqn:Hp; [|done].
  destruct (filter _ rows) as [|r0 l] eqn:Hf; [done|].
  intros [= <-]. exists d, rows. repeat split; try done.
  destruct (decide (GetName p ∈ names rows)) as [|Hn]; [done|].
  apply filter_name_nil in Hn. simpl in Hf. congruence.
Qed.

Lemma GetPublicationDate_None r p σ :
  GetPublicationDate r p σ = Ok None ->
  exists d rows, connect (DB r) σ = Ok d /\ posts d = Some rows /\
                 GetName p ∉ names rows.
Proof.
  unfold GetPublicationDate. destruct (connect (DB r) σ) as [d|e] eqn:Hc; [|done].
  unfold sql_select. destruct (posts d) as [rows|] eqn:Hp; [|done].
  destruct (filter _ rows) as [|r0 l] eqn:Hf; [|done].
  intros _. exists d, rows. repeat split; try done. by apply filter_name_nil.
Qed.

(** Inserting for a name without a row succeeds, whatever the index. *)
Lemma SetPublicationDate_fresh r p t σ d rows :
  connect (DB r) σ = Ok d -> posts d = Some rows -> GetName p ∉ names rows ->
  let dt := match t with None => CURRENT_DATE (clock σ) | Some t => Format_DateOnly t end in
  SetPublicationDate r p t σ =
    (Ok (Some (scan_date dt)),
     store (DB r) (mkDatabase (Some (rows ++ [mkRow (GetName p) dt])) (name_idx d)) σ).
Proof.
  intros Hc Hp Hn. simpl. unfold SetPublicationDate, sql_insert. rewrite Hc, Hp.
  rewrite (bool_decide_eq_false_2 _ Hn), andb_false_r. done.
Qed.

Lemma GetPublicationDate_after_insert r p dt σ d rows :
  GetName p ∉ names rows ->
  GetPublicationDate r p (store (DB r) (mkDatabase (Some (rows ++ [mkRow (GetName p) dt])) d) σ)
  = Ok (Some (scan_date dt)).
Proof.
  intros Hn. unfold GetPublicationDate. rewrite connect_store. unfold sql_select. simpl.
  rewrite filter_app. apply filter_name_nil in Hn. simpl in Hn. rewrite Hn. simpl.
  rewrite filter_cons. simpl. by rewrite decide_True.
Qed.

(** C7. A post that already has a registry entry cannot be given a second
    publication date: on a store with the unique index, [SetPublicationDate]
    for a name that [GetPublicationDate] finds fails with the uniqueness
    violation, leaves the world as it was, and the stored date is the one
    stored before the call. *)
Theorem SetPublicationDate_duplicate_fails r p t σ dt :
  has_name_idx r σ ->
  GetPublicationDate r p σ = Ok (Some dt) ->
  SetPublicationDate r p t σ = (Err (ErrSql UniqueConstraintFailed), σ) /\
  GetPublicationDate r p (snd (SetPublicationDate r p t σ)) = Ok (Some dt).
Proof.
  intros (d & Hc & Hidx) Hget.
  destruct (GetPublicationDate_Some _ _ _ _ Hget) as (d' & rows & Hc' & Hp & Hin & _).
  assert (d' = d) as -> by congruence.
  assert (Hset : SetPublicationDate r p t σ = (Err (ErrSql UniqueConstraintFailed), σ)).
  { unfold SetPublicationDate, sql_insert. rewrite Hc, Hp, Hidx.
    by rewrite (bool_decide_eq_true_2 _ Hin). }
  split; [done|]. by rewrite Hset.
Qed.

Lemma SetPublicationDate_duplicate_fails_witness :
  has_name_idx blog_registry published_world /\
  GetPublicationDate blog_registry (Toy.post "blog/001_a.md" true) published_world
    = Ok (Some (scan_date (mkDate 2024 1 1))) /\
  SetPublicationDate blog_registry (Toy.post "blog/001_a.md" true)
    (Some (mkTime 2024 1 2 0 0 0 0 UTC)) published_world
    = (Err (ErrSql UniqueConstraintFailed), published_world).
Proof.
  assert (H1 : has_name_idx blog_registry published_world).
  { eexists. split; vm_compute; reflexivity. }
  assert (H2 : GetPublicationDate blog_registry (Toy.post "blog/001_a.md" true) published_world
               = Ok (Some (scan_date (mkDate 2024 1 1)))).
  { vm_compute. reflexivity. }
  exact (conj H1 (conj H2 (proj1 (SetPublicationDate_duplicate_fails
           blog_registry (Toy.post "blog/001_a.md" true)
           (Some (mkTime 2024 1 2 0 0 0 0 UTC)) published_world _ H1 H2)))).
Defined.



(** ** Initialisation of a registry *)

(** [createSqliteRegistry] in closed form: it fails only when the file
    cannot be created; otherwise the file holds the empty table, whatever
    it held before. *)
Lemma createSqliteRegistry_spec directory σ :
  let fp := filepath_Join directory "blog.sqlite" in
  createSqliteRegistry directory σ =
    if bool_decide (fp ∈ denied σ) then (Err (ErrCreate fp), σ)
    else (Ok (mkSqliteRegistry (mkSqlDB (opened σ) fp) fp),
          mkWorld (<[fp := FileSqlite fresh_db]> (fs σ)) (denied σ) (clock σ)
                  (DefaultOptions σ) (htmlRenderer σ) (sqlitePool σ) (S (opened σ))).
Proof.
  intros fp. unfold createSqliteRegistry, os_Create. fold fp.
  destruct (bool_decide (fp ∈ denied σ)); [done|].
  unfold sql_Open, db_Exec_schema, connect. simpl.
  rewrite lookup_insert_eq. simpl.
  unfold store, set_fs. simpl. by rewrite insert_insert_eq.
Qed.

Lemma createSqliteRegistry_empties directory σ r σ' :
  createSqliteRegistry directory σ = (Ok r, σ') ->
  location r = filepath_Join directory "blog.sqlite" /\
  db_file (DB r) = location r /\
  entries (location r) σ' = [].
Proof.
  rewrite createSqliteRegistry_spec. case_bool_decide; [done|].
  intros [= <- <-]. repeat split. unfold entries. simpl. by rewrite lookup_insert_eq.
Qed.

(** The first [Acquire] for a directory installs a registry whose store is
    empty and has the index; every later one returns the registry of the
    pool and changes nothing. *)
Lemma Acquire_first directory σ :
  sqlitePool σ !! directory = None ->
  filepath_Join directory "blog.sqlite" ∉ denied σ ->
  exists r σ', Acquire directory σ = (Ok r, σ') /\
               sqlitePool σ' !! directory = Some r /\
               store_ok r σ' /\ entries (location r) σ' = [].
Proof.
  intros Hpool Hden. unfold Acquire. rewrite Hpool, createSqliteRegistry_spec.
  rewrite (bool_decide_eq_false_2 _ Hden). eexists _, _. split; [done|].
  unfold LoadOrStore. simpl. rewrite Hpool. split; [apply lookup_insert_eq|]. split.
  - exists fresh_db, []. unfold connect. simpl. rewrite lookup_insert_eq.
    repeat split. constructor.
  - unfold entries. simpl. by rewrite lookup_insert_eq.
Qed.

Lemma Acquire_again directory σ r :
  sqlitePool σ !! directory = Some r -> Acquire directory σ = (Ok r, σ).
Proof. intros Hpool. unfold Acquire. by rewrite Hpool. Qed.

(** [SetPublicationDate] keeps the names of a store distinct. *)
Lemma SetPublicationDate_store_ok r p t σ :
  store_ok r σ -> store_ok r (snd (SetPublicationDate r p t σ)).
Proof.
  intros (d & rows & Hc & Hp & Hidx & Hnd). unfold SetPublicationDate, sql_insert.
  rewrite Hc, Hp, Hidx. simpl. case_bool_decide as Hin; simpl.
  - by exists d, rows.
  - eexists _, _. rewrite connect_store. repeat split; try done. simpl.
    unfold names in *. rewrite fmap_app. simpl. apply NoDup_app. repeat split; try done.
    + intros x Hx [->|Hy]%elem_of_cons; [done | inversion Hy].
    + apply NoDup_singleton.
Qed.

Lemma store_ok_has_name_idx r σ : store_ok r σ -> has_name_idx r σ.
Proof. intros (d & rows & Hc & _ & Hidx & _). by exists d. Qed.

(** C3. Initialisation against a store that already exists is not a no-op:
    the first [Acquire] of a process on the directory of [rebuilt_world]
    succeeds and leaves the store without the entry it held. *)
Theorem createSqliteRegistry_wipes_store :
  entries "blog/blog.sqlite" rebuilt_world = [mkRow "001_a.md" (mkDate 2024 1 1)] /\
  exists σ', Acquire "blog" rebuilt_world = (Ok blog_registry, σ') /\
             entries "blog/blog.sqlite" σ' = [].
Proof.
  split; [vm_compute; reflexivity|].
  eexists. split; vm_compute; reflexivity.
Qed.

(** ** The pool under two goroutines *)

(** Run alone, the three steps of a goroutine are [Acquire]. *)
Lemma acquire_steps directory σ :
  let '(pc1, σ1) := acquire_step directory AtLoad σ in
  let '(pc2, σ2) := acquire_step directory pc1 σ1 in
  let '(pc3, σ3) := acquire_step directory pc2 σ2 in
  (pc3, σ3) = (Returned (fst (Acquire directory σ)), snd (Acquire directory σ)).
Proof.
  unfold Acquire. simpl.
  destruct (sqlitePool σ !! directory) as [r|]; [done|]. simpl.
  destruct (createSqliteRegistry directory σ) as [[r|e] σ1]; done.
Qed.

(** C9. Two goroutines that both miss in [pool.Load] before either has
    stored: both create a registry for the same file, the pool keeps the
    first one, and the second goroutine returns the one it created itself,
    a different handle on a second [sql.DB]. *)
Theorem Acquire_race_two_handles :
  exists r1 r2 σ',
    race "blog" [true; false; true; false; true; false] Toy.world
      = (Returned (Ok r1), Returned (Ok r2), σ') /\
    r1 <> r2 /\
    location r1 = location r2 /\
    sqlitePool σ' !! "blog" = Some r1 /\
    opened σ' = 2%nat.
Proof.
  eexists _, _, _. split; [vm_compute; reflexivity|].
  split; [by intros [=]|]. split; [done|]. split; vm_compute; reflexivity.
Qed.

(** ** Extraction *)

Section extraction.
Context (L : Libs).

Lemma WriteHtml_unfold {W} `{Writer W} (p : blogPost) (w : W) (σ : World) :
  WriteHtml L p w σ =
    match os_ReadFile L (FilePath p) σ with
    | None => (Some (ErrReadFile (FilePath p)), p, w, σ)
    | Some file =>
        let σ0 := set_htmlRenderer true σ in
        match extract L file p with
        | (Some e, p1) => (Some e, p1, w, σ0)
        | (None, p1) =>
            match resolve_dtPosted p1 σ0 with
            | (Err e, σ1) => (Some e, p1, w, σ1)
            | (Ok None, σ1) => (Some PanicNilPointer, p1, w, σ1)
            | (Ok (Some dtPosted), σ1) =>
                let '(e, p2, w') := finish L p1 w dtPosted in (e, p2, w', σ1)
            end
        end
    end.
Proof.
  unfold WriteHtml, extract, finish.
  destruct (os_ReadFile L (FilePath p) σ) as [file|]; [|done]. simpl.
  destruct (scan_nodes L (parser_Parse L file) None []) as [[[h|] ps]|e]; try done.
  destruct ps as [|q ps]; [done|].
  destruct (resolve_dtPosted _ _) as [[[dt|]|e] σ1]; try done.
  destruct (template_Parse L _) as [|[t|]]; try done.
  destruct (template_Execute L t _) as [buf|]; [|done].
  by destruct (io_Write w buf).
Qed.

End extraction.

Section extraction_facts.
Context (L : Libs).

(** The loop on a document made of headings and paragraphs only. *)
Lemma scan_nodes_supported nodes heading pars :
  forallb (supported L) nodes = true ->
  scan_nodes L nodes heading pars =
    if decide (already L heading + List.length (headings L nodes) <= 1)%nat
    then Ok (match heading with Some h => Some h | None => head (headings L nodes) end,
             pars ++ paragraphs L nodes)
    else Err ErrMultipleHeadings.
Proof.
  revert heading pars. induction nodes as [|c nodes IH]; intros heading pars Hs.
  - simpl. rewrite app_nil_r. destruct heading; by rewrite decide_True by (simpl; lia).
  - simpl in Hs. apply andb_prop in Hs as [Hc Hs].
    unfold supported, is_heading, is_paragraph in Hc.
    simpl. unfold headings, paragraphs, is_heading, is_paragraph in *. simpl.
    destruct (node_kind L c) eqn:Hk; try done; simpl.
    + destruct heading as [h|].
      * rewrite decide_False by (simpl; lia). done.
      * rewrite IH by done. simpl.
        repeat case_decide; try lia; try done.
    + rewrite IH by done. by rewrite <- app_assoc.
Qed.

(** The loop stops at the first node that is neither a heading nor a
    paragraph, unless it stopped before at a second heading. *)
Lemma scan_nodes_unsupported pre c post ty heading pars :
  forallb (supported L) pre = true ->
  node_kind L c = IsOther ty ->
  (already L heading + List.length (headings L pre) <= 1)%nat ->
  scan_nodes L (pre ++ c :: post) heading pars = Err (ErrUnexpectedNode ty).
Proof.
  revert heading pars. induction pre as [|n pre IH]; intros heading pars Hs Hc Hn.
  - simpl. by rewrite Hc.
  - simpl in Hs. apply andb_prop in Hs as [Hn' Hs].
    unfold supported, is_heading, is_paragraph in Hn'.
    unfold headings, is_heading in *. simpl in *.
    destruct (node_kind L n) eqn:Hk; try done; simpl in *.
    + destruct heading as [h|]; simpl in *; [lia|].
      by apply IH.
    + by apply IH.
Qed.

End extraction_facts.

(** C5, as stated, fails: the post [002_b.md] consists of a list; it has no
    heading, and [WriteHtml] reports the list, not the missing heading. *)
Lemma distinct_error_per_defect_fails : ~ distinct_error_per_defect.
Proof.
  intros H.
  destruct (H Toy.libs (Toy.post "blog/002_b.md" false) "" Toy.world "- item")
    as [H0 _]; [vm_compute; reflexivity|].
  specialize (H0 eq_refl). vm_compute in H0. discriminate H0.
Qed.

(** C5, amended. For a readable file whose top-level nodes are all headings
    or paragraphs, [WriteHtml] fails with [ErrNoHeading] when there is no
    heading, with [ErrMultipleHeadings] when there are two or more, and
    with [ErrNoParagraphs] when there is one heading and no paragraph.  For
    a file with a node that is neither, it fails with [ErrUnexpectedNode]
    for the first such node, provided at most one heading stands before
    it. *)
Theorem extraction_errors {W} `{Writer W} (L : Libs) (p : blogPost) (w : W) (σ : World)
    (file : string) :
  os_ReadFile L (FilePath p) σ = Some file ->
  let nodes := parser_Parse L file in
  (forallb (supported L) nodes = true ->
     (List.length (headings L nodes) = 0%nat -> error_of L p w σ = Some ErrNoHeading) /\
     ((2 <= List.length (headings L nodes))%nat ->
        error_of L p w σ = Some ErrMultipleHeadings) /\
     (List.length (headings L nodes) = 1%nat -> List.length (paragraphs L nodes) = 0%nat ->
        error_of L p w σ = Some ErrNoParagraphs)) /\
  (forall pre c post ty,
     nodes = pre ++ c :: post ->
     forallb (supported L) pre = true ->
     node_kind L c = IsOther ty ->
     (List.length (headings L pre) <= 1)%nat ->
     error_of L p w σ = Some (ErrUnexpectedNode ty)).
Proof.
  intros Hread nodes. unfold error_of. rewrite WriteHtml_unfold, Hread. simpl.
  unfold extract. fold nodes. split.
  - intros Hs. rewrite (scan_nodes_supported L nodes None [] Hs). simpl.
    repeat split.
    + intros H0. rewrite H0. simpl.
      destruct (headings L nodes); [done | discriminate H0].
    + intros H2. by rewrite decide_False by lia.
    + intros H1 Hp. rewrite H1. simpl.
      destruct (headings L nodes) as [|h [|]]; try discriminate H1. simpl.
      by destruct (paragraphs L nodes).
  - intros pre c post ty -> Hs Hc Hn.
    by rewrite (scan_nodes_unsupported L pre c post ty None [] Hs Hc Hn).
Qed.

Lemma extraction_errors_witness :
  (os_ReadFile Toy.libs "blog/002_b.md" Toy.world = Some "- item" /\
   error_of Toy.libs (Toy.post "blog/002_b.md" false) "" Toy.world
     = Some (ErrUnexpectedNode "*ast.List")) /\
  (os_ReadFile Toy.libs "blog/004_d.md" Toy.world = Some "## Alone" /\
   error_of Toy.libs (Toy.post "blog/004_d.md" false) "" Toy.world
     = Some ErrNoParagraphs).
Proof.
  assert (H2 : os_ReadFile Toy.libs (FilePath (Toy.post "blog/002_b.md" false)) Toy.world
               = Some "- item") by (vm_compute; reflexivity).
  assert (H4 : os_ReadFile Toy.libs (FilePath (Toy.post "blog/004_d.md" false)) Toy.world
               = Some "## Alone") by (vm_compute; reflexivity).
  split; split; [exact H2 | | exact H4 | ].
  - exact (proj2 (extraction_errors Toy.libs (Toy.post "blog/002_b.md" false) "" Toy.world
                    "- item" H2)
                 [] (Toy.TList "item") [] "*ast.List" eq_refl eq_refl eq_refl
                 (le_S _ _ (le_n 0))).
  - exact (proj2 (proj2 (proj1 (extraction_errors Toy.libs (Toy.post "blog/004_d.md" false)
                                  "" Toy.world "## Alone" H4) eq_refl))
                 eq_refl eq_refl).
Defined.

(** ** The heading text *)

Lemma append_nil s : "" +:+ s = s.
Proof. reflexivity. Qed.

Lemma append_cons c s t : String c s +:+ t = String c (s +:+ t).
Proof. reflexivity. Qed.

Lemma string_prefix_nil s : String.prefix "" s = true.
Proof. by destruct s. Qed.

Lemma string_prefix_cons a s b s' :
  String.prefix (String a s) (String b s')
  = if ascii_dec a b then String.prefix s s' else false.
Proof. reflexivity. Qed.

Lemma prefix_no_lt t x y :
  no_lt t = true ->
  String.prefix t (x +:+ String "<" y) = true -> String.prefix t x = true.
Proof.
  revert x. induction t as [|a t IH]; intros x Ht Hp; [by destruct x|].
  cbn [no_lt] in Ht. apply andb_prop in Ht as [Ha Ht].
  destruct x as [|b x].
  - rewrite append_nil, string_prefix_cons in Hp.
    destruct (ascii_dec a "<") as [->|]; [done|done].
  - rewrite append_cons, string_prefix_cons in Hp. rewrite string_prefix_cons.
    destruct (ascii_dec a b); [by apply IH | done].
Qed.

(** An old string of the replacer cannot start in [x] and end beyond it in
    a text that starts with ["<"]. *)
Lemma prefix_straddle t c x y :
  no_lt t = true ->
  String.prefix (String "<" t) (String c x) = false ->
  String.prefix (String "<" t) (String c x +:+ String "<" y) = false.
Proof.
  intros Ht E. rewrite append_cons. rewrite string_prefix_cons in *.
  destruct (ascii_dec "<" c); [|done].
  destruct (String.prefix t (x +:+ String "<" y)) eqn:E'; [|done].
  apply prefix_no_lt in E'; [congruence | done].
Qed.

Lemma lookup_pair_straddle c x y :
  lookup_pair heading_replacer (String c x) = None ->
  lookup_pair heading_replacer (String c x +:+ String "<" y) = None.
Proof.
  unfold heading_replacer, lookup_pair.
  destruct (String.prefix "<h2>" (String c x)) eqn:E1; [discriminate|].
  destruct (String.prefix "</h2>" (String c x)) eqn:E2; [discriminate|].
  destruct (String.prefix "<h3>" (String c x)) eqn:E3; [discriminate|].
  destruct (String.prefix "</h3>" (String c x)) eqn:E4; [discriminate|].
  intros _.
  rewrite (prefix_straddle "h2>" c x y eq_refl E1), (prefix_straddle "/h2>" c x y eq_refl E2),
          (prefix_straddle "h3>" c x y eq_refl E3), (prefix_straddle "/h3>" c x y eq_refl E4).
  reflexivity.
Qed.

Lemma Replace_from_tag_free x y :
  tag_free x = true ->
  Replace_from heading_replacer 0 (x +:+ String "<" y)
  = x +:+ Replace_from heading_replacer 0 (String "<" y).
Proof.
  induction x as [|c x IH]; intros Hx; [done|].
  cbn [tag_free] in Hx.
  destruct (lookup_pair heading_replacer (String c x)) eqn:E; [done|].
  apply (lookup_pair_straddle c x y) in E.
  rewrite append_cons in *.
  cbn [Replace_from]. rewrite E. rewrite append_cons. by rewrite IH.
Qed.

Lemma Replace_from_tag_free_end x :
  tag_free x = true -> Replace_from heading_replacer 0 x = x.
Proof.
  induction x as [|c x IH]; intros Hx; [done|].
  cbn [tag_free] in Hx. cbn [Replace_from].
  destruct (lookup_pair heading_replacer (String c x)); [done|]. by rewrite IH.
Qed.

Lemma remove_last_app t x y z :
  remove_last t y = Some z -> remove_last t (x +:+ y) = Some (x +:+ z).
Proof.
  intros H. induction x as [|c x IH]; [done|].
  rewrite !append_cons. cbn [remove_last]. by rewrite IH.
Qed.

Lemma lookup_pair_None_prefix s :
  lookup_pair heading_replacer s = None ->
  String.prefix "<h2>" s = false /\ String.prefix "</h2>" s = false /\
  String.prefix "<h3>" s = false /\ String.prefix "</h3>" s = false.
Proof.
  unfold heading_replacer, lookup_pair.
  destruct (String.prefix "<h2>" s); [discriminate|].
  destruct (String.prefix "</h2>" s); [discriminate|].
  destruct (String.prefix "<h3>" s); [discriminate|].
  destruct (String.prefix "</h3>" s); [discriminate|]. done.
Qed.

Lemma remove_last_tag_free s :
  tag_free s = true ->
  remove_last "</h2>" s = None /\ remove_last "</h3>" s = None.
Proof.
  induction s as [|c s IH]; intros Hs; [done|].
  cbn [tag_free] in Hs.
  destruct (lookup_pair heading_replacer (String c s)) eqn:E; [done|].
  destruct (lookup_pair_None_prefix _ E) as (_ & E2 & _ & E3).
  destruct (IH Hs) as [IH2 IH3]. cbn [remove_last]. by rewrite IH2, IH3, E2, E3.
Qed.

Lemma append_assoc (a b c : string) : (a +:+ b) +:+ c = a +:+ (b +:+ c).
Proof. induction a as [|x a IH]; [done|]. rewrite !append_cons. by rewrite IH. Qed.

Ltac run_replacer :=
  rewrite ?append_cons, ?append_nil;
  cbn [Replace_from lookup_pair heading_replacer remove_last remove_first];
  rewrite ?string_prefix_cons, ?string_prefix_nil; cbn.

Lemma Replace_from_tag (l : nat) rest :
  l = 2%nat \/ l = 3%nat ->
  Replace_from heading_replacer 0 (open_tag l +:+ rest) = Replace_from heading_replacer 0 rest /\
  Replace_from heading_replacer 0 (close_tag l +:+ rest) = Replace_from heading_replacer 0 rest.
Proof.
  intros [-> | ->]; split.
  - change (open_tag 2) with "<h2>". by run_replacer.
  - change (close_tag 2) with "</h2>". by run_replacer.
  - change (open_tag 3) with "<h3>". by run_replacer.
  - change (close_tag 3) with "</h3>". by run_replacer.
Qed.

Lemma tag_lt (l : nat) rest :
  l = 2%nat \/ l = 3%nat ->
  (exists y, open_tag l +:+ rest = String "<" y) /\
  (exists y, close_tag l +:+ rest = String "<" y).
Proof. intros [-> | ->]; split; eexists; reflexivity. Qed.

(** The replacer of [WriteHtml] on a rendered heading of level 2 or 3. *)
Lemma Replace_heading (l : nat) leader inner trailer :
  l = 2%nat \/ l = 3%nat ->
  tag_free leader = true -> tag_free inner = true -> tag_free trailer = true ->
  Replace heading_replacer (leader +:+ open_tag l +:+ inner +:+ close_tag l +:+ trailer)
  = leader +:+ inner +:+ trailer.
Proof.
  intros Hl Hd Hi Ht. unfold Replace.
  destruct (proj1 (tag_lt l (inner +:+ close_tag l +:+ trailer) Hl)) as [y Hy]. rewrite Hy.
  rewrite Replace_from_tag_free by done. rewrite <- Hy. f_equal.
  rewrite (proj1 (Replace_from_tag l _ Hl)).
  destruct (proj2 (tag_lt l trailer Hl)) as [z Hz]. rewrite Hz.
  rewrite Replace_from_tag_free by done. rewrite <- Hz.
  rewrite (proj2 (Replace_from_tag l _ Hl)).
  by rewrite Replace_from_tag_free_end.
Qed.

Lemma remove_first_tag_free (l : nat) leader y :
  l = 2%nat \/ l = 3%nat ->
  tag_free leader = true ->
  remove_first (open_tag l) (leader +:+ String "<" y)
  = String.append leader <$> remove_first (open_tag l) (String "<" y).
Proof.
  intros Hl. set (r := remove_first (open_tag l) (String "<" y)).
  induction leader as [|c x IH]; intros Hx.
  - rewrite append_nil. fold r. by destruct r.
  - cbn [tag_free] in Hx.
    destruct (lookup_pair heading_replacer (String c x)) eqn:E; [done|].
    apply (lookup_pair_straddle c x y) in E.
    destruct (lookup_pair_None_prefix _ E) as (E1 & _ & E3 & _).
    rewrite append_cons in *. cbn [remove_first].
    assert (String.prefix (open_tag l) (String c (x +:+ String "<" y)) = false) as ->
      by (by destruct Hl as [-> | ->]).
    rewrite (IH Hx). destruct r; reflexivity.
Qed.

(** The heading text of the specification for the same rendering. *)
Lemma strip_heading_wrapper_spec (l : nat) leader inner trailer :
  l = 2%nat \/ l = 3%nat ->
  tag_free leader = true -> tag_free trailer = true ->
  strip_heading_wrapper l (leader +:+ open_tag l +:+ inner +:+ close_tag l +:+ trailer)
  = leader +:+ inner +:+ trailer.
Proof.
  intros Hl Hd Ht. unfold strip_heading_wrapper.
  assert (Hopen : forall rest, remove_first (open_tag l) (open_tag l +:+ rest) = Some rest).
  { intros rest. destruct Hl as [-> | ->].
    - change (open_tag 2) with "<h2>". by run_replacer.
    - change (open_tag 3) with "<h3>". by run_replacer. }
  destruct (proj1 (tag_lt l (inner +:+ close_tag l +:+ trailer) Hl)) as [y Hy].
  rewrite Hy, (remove_first_tag_free l leader y Hl Hd), <- Hy, Hopen. simpl.
  assert (Hlast : remove_last (close_tag l) (close_tag l +:+ trailer) = Some trailer).
  { destruct (remove_last_tag_free _ Ht) as [H2 H3].
    destruct Hl as [-> | ->].
    - change (close_tag 2) with "</h2>". rewrite !append_cons, append_nil.
      cbn [remove_last]. rewrite H2. by run_replacer.
    - change (close_tag 3) with "</h3>". rewrite !append_cons, append_nil.
      cbn [remove_last]. rewrite H3. by run_replacer. }
  rewrite <- (append_assoc leader inner (close_tag l +:+ trailer)).
  rewrite (remove_last_app _ (leader +:+ inner) _ _ Hlast).
  by rewrite append_assoc.
Qed.

Lemma Heading_post_of {W} `{Writer W} (L : Libs) (p : blogPost) (w : W) (σ : World) file :
  os_ReadFile L (FilePath p) σ = Some file ->
  Heading (post_of L p w σ) = Heading (snd (extract L file p)).
Proof.
  intros Hread. unfold post_of. rewrite WriteHtml_unfold, Hread. simpl.
  destruct (extract L file p) as [[e|] p1]; [done|]. simpl.
  destruct (resolve_dtPosted p1 _) as [[[dt|]|e] σ1]; try done.
  unfold finish. destruct (template_Parse L _) as [|[t|]]; try done.
  destruct (template_Execute L t _) as [buf|]; [|done].
  by destruct (io_Write w buf).
Qed.

Lemma Heading_extract (L : Libs) (p : blogPost) file h :
  forallb (supported L) (parser_Parse L file) = true ->
  headings L (parser_Parse L file) = [h] ->
  Heading (snd (extract L file p)) = Replace heading_replacer (markdown_Render L h).
Proof.
  intros Hs Hh. unfold extract. rewrite (scan_nodes_supported L _ None [] Hs), Hh. simpl.
  by destruct (paragraphs L (parser_Parse L file)).
Qed.

(** C6, as stated, fails: the heading of post [003_c.md] has level 1; its
    wrapper is still there in the heading text. *)
Lemma heading_wrapper_stripped_fails : ~ heading_wrapper_stripped.
Proof.
  intros H.
  specialize (H Toy.libs (Toy.post "blog/003_c.md" false) "" Toy.world
                ("# Title" +:+ Toy.nl +:+ "Body.") (Toy.THeading 1 "Title")).
  vm_compute in H. specialize (H eq_refl eq_refl eq_refl). discriminate H.
Qed.

(** The replacer strips every occurrence of its tags, also one that is
    inline markup of the heading: post [005_e.md]. *)
Lemma nested_tag_is_stripped :
  Heading (post_of Toy.libs (Toy.post "blog/005_e.md" false) "" Toy.world)
    = "Big small" +:+ Toy.nl /\
  strip_heading_wrapper 2 ("<h2>Big <h3>small</h3></h2>" +:+ Toy.nl)
    = "Big <h3>small</h3>" +:+ Toy.nl.
Proof. split; vm_compute; reflexivity. Qed.

(** C6, amended. For a document with one heading, of level 2 or 3, whose
    rendering is the wrapper of that level around an inner text, after a
    leader and before a trailer, none of the three containing one of the
    tags [<h2>], [</h2>], [<h3>], [</h3>]: the heading text is the rendered
    heading without the two wrapper tags, the inner text (with its inline
    markup) unchanged. *)
Theorem heading_text {W} `{Writer W} (L : Libs) (p : blogPost) (w : W) (σ : World)
    (file : string) (h : Node L) (leader inner trailer : string) :
  os_ReadFile L (FilePath p) σ = Some file ->
  forallb (supported L) (parser_Parse L file) = true ->
  headings L (parser_Parse L file) = [h] ->
  heading_Level L h = 2%nat \/ heading_Level L h = 3%nat ->
  markdown_Render L h
    = leader +:+ open_tag (heading_Level L h) +:+ inner
      +:+ close_tag (heading_Level L h) +:+ trailer ->
  tag_free leader = true ->
  tag_free inner = true ->
  tag_free trailer = true ->
  Heading (post_of L p w σ) = leader +:+ inner +:+ trailer /\
  Heading (post_of L p w σ)
    = strip_heading_wrapper (heading_Level L h) (markdown_Render L h).
Proof.
  intros Hread Hs Hh Hl Hr Hd Hi Ht.
  rewrite (Heading_post_of L p w σ file Hread), (Heading_extract L p file h Hs Hh), Hr.
  rewrite (Replace_heading _ _ _ _ Hl Hd Hi Ht).
  by rewrite (strip_heading_wrapper_spec _ _ _ _ Hl Hd Ht).
Qed.

Lemma heading_text_witness :
  Heading (post_of Toy.libs (Toy.post "blog/001_a.md" false) "" Toy.world)
    = "" +:+ "Hello <em>world</em>" +:+ Toy.nl /\
  Heading (post_of Toy.libs (Toy.post "blog/001_a.md" false) "" Toy.world)
    = strip_heading_wrapper 2 ("<h2>Hello <em>world</em></h2>" +:+ Toy.nl).
Proof.
  exact (heading_text Toy.libs (Toy.post "blog/001_a.md" false) "" Toy.world
           ("## Hello <em>world</em>" +:+ Toy.nl +:+ "Some <em>text</em>.")
           (Toy.THeading 2 "Hello <em>world</em>")
           "" "Hello <em>world</em>" Toy.nl
           eq_refl eq_refl eq_refl (or_introl eq_refl) eq_refl eq_refl eq_refl eq_refl).
Defined.

(** ** The publication date *)

Lemma resolve_dtPosted_first p σ :
  tracking p σ = true -> Backend (DefaultOptions σ) = SQLite ->
  sqlitePool σ !! directory_of p = None ->
  resolve_dtPosted p σ =
    if bool_decide (store_of p ∈ denied σ) then (Err (ErrCreate (store_of p)), σ)
    else (Ok (Some (scan_date (CURRENT_DATE (clock σ)))), first_tracked p σ).
Proof.
  intros Ht Hb Hpool. unfold resolve_dtPosted. unfold tracking in Ht. rewrite Ht, Hb.
  rewrite bool_decide_eq_true_2 by done.
  unfold Acquire. fold (directory_of p). rewrite Hpool, createSqliteRegistry_spec.
  fold (store_of p). case_bool_decide; [done|].
  set (r := mkSqliteRegistry _ _). set (σ1 := set_sqlitePool _ _).
  assert (Hc : connect (DB r) σ1 = Ok fresh_db).
  { unfold connect, σ1. simpl. by rewrite lookup_insert_eq. }
  assert (Hget : GetPublicationDate r p σ1 = Ok None).
  { unfold GetPublicationDate. by rewrite Hc. }
  rewrite Hget.
  rewrite (SetPublicationDate_fresh r p None σ1 fresh_db [] Hc eq_refl)
    by (intros Hin; inversion Hin).
  f_equal. unfold store, first_tracked, σ1, set_fs, set_sqlitePool, LoadOrStore. simpl.
  rewrite Hpool. by rewrite insert_insert_eq.
Qed.

Lemma resolve_dtPosted_again p σ r :
  tracking p σ = true -> Backend (DefaultOptions σ) = SQLite ->
  sqlitePool σ !! directory_of p = Some r ->
  resolve_dtPosted p σ =
    match GetPublicationDate r p σ with
    | Err e => (Err e, σ)
    | Ok (Some dtPosted) => (Ok (Some dtPosted), σ)
    | Ok None => SetPublicationDate r p None σ
    end.
Proof.
  intros Ht Hb Hpool. unfold resolve_dtPosted. unfold tracking in Ht. rewrite Ht, Hb.
  rewrite bool_decide_eq_true_2 by done.
  unfold Acquire. fold (directory_of p). by rewrite Hpool.
Qed.

Lemma resolve_dtPosted_untracked p σ :
  tracking p σ = false ->
  resolve_dtPosted p σ = (Ok (Some (time_Now (clock σ))), σ).
Proof. intros Ht. unfold resolve_dtPosted. unfold tracking in Ht. by rewrite Ht. Qed.

(** What resolving the date of a tracked post without an entry leaves
    behind, when it succeeds; its failures are not late ones. *)
Lemma resolve_dtPosted_persists p σ :
  tracking p σ = true -> Backend (DefaultOptions σ) = SQLite ->
  (forall r, sqlitePool σ !! directory_of p = Some r -> GetPublicationDate r p σ = Ok None) ->
  match resolve_dtPosted p σ with
  | (Err e, _) => ~ late_error e
  | (Ok None, _) => False
  | (Ok (Some dt), σ1) =>
      clock σ1 = clock σ /\
      exists r, sqlitePool σ1 !! directory_of p = Some r /\
                GetPublicationDate r p σ1 = Ok (Some (scan_date (CURRENT_DATE (clock σ)))) /\
                mkRow (GetName p) (CURRENT_DATE (clock σ)) ∈ entries (db_file (DB r)) σ1
  end.
Proof.
  intros Ht Hb Hfresh.
  destruct (sqlitePool σ !! directory_of p) as [r|] eqn:Hpool.
  - rewrite (resolve_dtPosted_again p σ r Ht Hb Hpool), (Hfresh r eq_refl).
    destruct (GetPublicationDate_None _ _ _ (Hfresh r eq_refl)) as (d & rows & Hc & Hp & Hn).
    rewrite (SetPublicationDate_fresh r p None σ d rows Hc Hp Hn).
    split; [done|]. exists r. split; [done|]. split.
    + by apply GetPublicationDate_after_insert.
    + rewrite entries_store. simpl. apply elem_of_app. right. by apply list_elem_of_singleton.
  - rewrite (resolve_dtPosted_first p σ Ht Hb Hpool). case_bool_decide.
    + unfold late_error. intros [|[|[|]]]; done.
    + split; [done|]. eexists. split; [apply lookup_insert_eq|]. split.
      * unfold GetPublicationDate, connect, first_tracked. simpl.
        rewrite lookup_insert_eq. simpl. unfold sql_select. simpl.
        rewrite filter_cons, decide_True by done. done.
      * unfold entries, first_tracked. simpl. rewrite lookup_insert_eq. simpl.
        by apply list_elem_of_singleton.
Qed.

Lemma scan_nodes_error (L : Libs) nodes heading pars e :
  scan_nodes L nodes heading pars = Err e ->
  e = ErrMultipleHeadings \/ exists ty, e = ErrUnexpectedNode ty.
Proof.
  revert heading pars. induction nodes as [|c nodes IH]; intros heading pars; [done|].
  simpl. destruct (node_kind L c).
  - destruct heading; [intros [= <-]; by left | apply IH].
  - apply IH.
  - intros [= <-]. right. by eexists.
Qed.

(** Extraction assigns [Heading] and [Content] only, and its errors are
    the four input-shape errors. *)
Lemma extract_post (L : Libs) file p :
  let '(e, p1) := extract L file p in
  FilePath p1 = FilePath p /\ publicationTracking p1 = publicationTracking p /\
  template p1 = template p /\ PublicationDate p1 = PublicationDate p /\
  forall e', e = Some e' -> ~ late_error e'.
Proof.
  unfold extract.
  destruct (scan_nodes L (parser_Parse L file) None []) as [[[h|] ps]|e] eqn:Hscan.
  - destruct ps; repeat split; try done;
      intros e' [= <-]; unfold late_error; intros [|[|[|]]]; done.
  - repeat split; try done. intros e' [= <-]. unfold late_error. intros [|[|[|]]]; done.
  - repeat split; try done. intros e' [= <-].
    destruct (scan_nodes_error _ _ _ _ _ Hscan) as [-> | [ty ->]];
      unfold late_error; intros [|[|[|]]]; done.
Qed.

Lemma resolve_dtPosted_post p p1 σ :
  FilePath p1 = FilePath p -> publicationTracking p1 = publicationTracking p ->
  resolve_dtPosted p1 σ = resolve_dtPosted p σ.
Proof.
  intros Hf Ht. unfold resolve_dtPosted, GetPublicationDate, SetPublicationDate,
    GetName, GetFilePath. by rewrite Hf, Ht.
Qed.

(** C10. With tracking on and no entry for the post yet, a [WriteHtml] that
    fails late (in parsing or executing the template, or in the writer)
    returns its error after the entry was inserted: the registry of the
    collection is in the pool and finds the entry of the post, dated with
    the current date of the call, in the world the call leaves. *)
Theorem WriteHtml_late_failure_keeps_entry {W} `{Writer W} (L : Libs) (p : blogPost)
    (w : W) (σ : World) e p' w' σ' :
  tracking p σ = true ->
  Backend (DefaultOptions σ) = SQLite ->
  (forall r, sqlitePool σ !! directory_of p = Some r -> GetPublicationDate r p σ = Ok None) ->
  WriteHtml L p w σ = (Some e, p', w', σ') ->
  late_error e ->
  exists r, sqlitePool σ' !! directory_of p = Some r /\
            GetPublicationDate r p σ' = Ok (Some (scan_date (CURRENT_DATE (clock σ)))) /\
            mkRow (GetName p) (CURRENT_DATE (clock σ)) ∈ entries (db_file (DB r)) σ'.
Proof.
  intros Ht Hb Hfresh Hw Hlate. rewrite WriteHtml_unfold in Hw.
  destruct (os_ReadFile L (FilePath p) σ) as [file|].
  2:{ injection Hw as <- _ _ _. destruct Hlate as [|[|[|]]]; done. }
  simpl in Hw. pose proof (extract_post L file p) as Hx.
  destruct (extract L file p) as [[ex|] p1]; destruct Hx as (Hf & Htr & _ & _ & Hnl).
  { injection Hw as <- _ _ _. by destruct (Hnl ex eq_refl). }
  rewrite (resolve_dtPosted_post p p1 _ Hf Htr) in Hw.
  pose proof (resolve_dtPosted_persists p (set_htmlRenderer true σ) Ht Hb Hfresh) as Hr.
  destruct (resolve_dtPosted p (set_htmlRenderer true σ)) as [[[dt|]|er] σ1]; try done.
  - destruct Hr as (_ & r & Hr). destruct (finish L p1 w dt) as [[ef p2] wf].
    injection Hw as _ _ _ <-. by exists r.
  - injection Hw as <- _ _ _. done.
Qed.

Lemma WriteHtml_late_failure_keeps_entry_witness :
  fst (fst (fst (WriteHtml Toy.libs broken_post "" Toy.world))) = Some ErrTemplateExecute /\
  exists r, sqlitePool (snd (WriteHtml Toy.libs broken_post "" Toy.world)) !! "blog" = Some r /\
            GetPublicationDate r broken_post (snd (WriteHtml Toy.libs broken_post "" Toy.world))
              = Ok (Some (scan_date Toy.today)) /\
            mkRow "001_a.md" Toy.today
              ∈ entries (db_file (DB r)) (snd (WriteHtml Toy.libs broken_post "" Toy.world)).
Proof.
  split; [vm_compute; reflexivity|].
  apply (WriteHtml_late_failure_keeps_entry Toy.libs broken_post "" Toy.world
           ErrTemplateExecute
           (snd (fst (fst (WriteHtml Toy.libs broken_post "" Toy.world))))
           (snd (fst (WriteHtml Toy.libs broken_post "" Toy.world)))).
  - vm_compute; reflexivity.
  - vm_compute; reflexivity.
  - intros r Hr. vm_compute in Hr. discriminate Hr.
  - vm_compute; reflexivity.
  - right; right; left; reflexivity.
Defined.

(** ** One render, in closed form *)

Section rendering.
Context (L : Libs).


(** A successful extraction assigns the same two fields to every post
    read from the same file. *)
Lemma extract_ok file p p1 :
  extract L file p = (None, p1) ->
  exists h c, forall q, extract L file q = (None, set_Content c (set_Heading h q)).
Proof.
  unfold extract.
  destruct (scan_nodes L (parser_Parse L file) None []) as [[[h|] ps]|e]; try done.
  destruct ps as [|n ps]; [done|]. intros _. by eexists _, _.
Qed.

Lemma extract_failed file p e p1 :
  extract L file p = (Some e, p1) ->
  forall q, exists q1, extract L file q = (Some e, q1).
Proof.
  unfold extract.
  destruct (scan_nodes L (parser_Parse L file) None []) as [[[h|] ps]|e0].
  - destruct ps as [|n ps]; [|done]. intros [= <- _] q. by eexists.
  - intros [= <- _] q. by eexists.
  - intros [= <- _] q. by eexists.
Qed.

End rendering.


(** ** Renders of one collection do not disturb each other *)




Lemma resolve_dtPosted_view p σ : fst (resolve_dtPosted p σ) = date_view p σ.
Proof.
  unfold date_view. destruct (tracking p σ) eqn:Ht.
  2:{ by rewrite resolve_dtPosted_untracked. }
  case_bool_decide as Hb.
  2:{ unfold resolve_dtPosted. unfold tracking in Ht. rewrite Ht.
      by rewrite bool_decide_eq_false_2. }
  destruct (sqlitePool σ !! directory_of p) as [r|] eqn:Hpool.
  - rewrite (resolve_dtPosted_again p σ r Ht Hb Hpool).
    unfold GetPublicationDate, sql_select.
    destruct (connect (DB r) σ) as [d|e] eqn:Hc; [|done].
    destruct (posts d) as [rows|] eqn:Hp; [|done]. simpl.
    destruct (filter _ rows) as [|r0 l] eqn:Hf; simpl; [|done].
    apply filter_name_nil in Hf.
    by rewrite (SetPublicationDate_fresh r p None σ d rows Hc Hp Hf).
  - rewrite (resolve_dtPosted_first p σ Ht Hb Hpool). by case_bool_decide.
Qed.

Lemma date_view_result p σ :
  match date_view p σ with
  | Ok None => False
  | Ok (Some _) => True
  | Err e => e <> PanicNilPointer
  end.
Proof.
  unfold date_view. destruct (tracking p σ); [|done].
  case_bool_decide; [|done].
  destruct (sqlitePool σ !! directory_of p) as [r|]; [|by case_bool_decide].
  unfold connect. destruct (fs σ !! db_file (DB r)) as [[[|c s]|d]|]; simpl; try done.
  - destruct (posts d); [|done]. by destruct (filter _ _).
Qed.

Lemma extract_error (L : Libs) file p e p1 :
  extract L file p = (Some e, p1) ->
  e = ErrMultipleHeadings \/ (exists ty, e = ErrUnexpectedNode ty) \/
  e = ErrNoHeading \/ e = ErrNoParagraphs.
Proof.
  unfold extract.
  destruct (scan_nodes L (parser_Parse L file) None []) as [[[h|] ps]|e'] eqn:E.
  - destruct ps; [|done]. intros [= <- _]. by right; right; right.
  - intros [= <- _]. by right; right; left.
  - intros [= <- _]. destruct (scan_nodes_error _ _ _ _ _ E) as [-> | Hty]; auto.
Qed.

(** [SetPublicationDate] never returns a nil date without an error, so the
    nil pointer is never dereferenced. *)
Lemma WriteHtml_never_panics {W} `{Writer W} (L : Libs) (p : blogPost) (w : W) (σ : World) :
  error_of L p w σ <> Some PanicNilPointer.
Proof.
  unfold error_of. rewrite WriteHtml_unfold.
  destruct (os_ReadFile L (FilePath p) σ) as [file|]; [|done]. simpl.
  destruct (extract L file p) as [[ex|] p1] eqn:Hex.
  { simpl. intros [= ->].
    destruct (extract_error L file p _ _ Hex) as [|[[ty ?]|[|]]]; done. }
  pose proof (date_view_result p1 (set_htmlRenderer true σ)) as Hv.
  rewrite <- resolve_dtPosted_view in Hv.
  destruct (resolve_dtPosted p1 (set_htmlRenderer true σ)) as [[[dt|]|er] σ1]; simpl in *.
  - unfold finish. destruct (template_Parse L _) as [|[t|]]; try done.
    destruct (template_Execute L t _) as [buf|]; [|done].
    destruct (io_Write w buf) as [w' []]; done.
  - done.
  - congruence.
Qed.






Section batch.
Context (L : Libs).





End batch.

Section modes.
Context (L : Libs).


End modes.

Section async.
Context (L : Libs).



End async.

Section agreement.
Context (L : Libs).




End agreement.





(** ** Errors of the concurrent render *)

(** [RenderPostsAsync] returns a nil error whatever its goroutines did. *)
Lemma RenderPostsAsync_error_nil (L : Libs) sched b σ :
  snd (fst (fst (RenderPostsAsync L sched b σ))) = None.
Proof. unfold RenderPostsAsync. by destruct (first_err _). Qed.

(** C1. A failing post does not make [RenderPostsAsync] fail: in
    [list_blog] the second post cannot be rendered, [RenderPosts] returns
    the error of that post, and [RenderPostsAsync] returns no bytes and a
    nil error. *)
Theorem RenderPostsAsync_reports_no_error :
  error_of Toy.libs (Toy.post "blog/002_b.md" false) "" Toy.world
    = Some (ErrUnexpectedNode "*ast.List") /\
  fst (fst (RenderPosts Toy.libs list_blog Toy.world))
    = ("", Some (ErrRenderPost "blog/002_b.md" (ErrUnexpectedNode "*ast.List"))) /\
  fst (fst (RenderPostsAsync Toy.libs [0%nat; 1%nat] list_blog Toy.world)) = ("", None).
Proof. repeat split; vm_compute; reflexivity. Qed.

(** * Further properties *)

(** ** The pool and the registry *)

Lemma entries_connect db σ d rows :
  connect db σ = Ok d -> posts d = Some rows -> entries (db_file db) σ = rows.
Proof.
  unfold entries, connect. destruct (fs σ !! db_file db) as [[[|c s]|d0]|]; simpl; try done.
  - intros [= <-]. done.
  - intros [= ->] ->. done.
Qed.

(** X1. Run one after the other, calls of [Acquire] for a directory share
    one handle: after a successful call, the next one returns the same
    registry and changes nothing (no file is created again). *)
Theorem Acquire_twice directory σ r σ' :
  Acquire directory σ = (Ok r, σ') ->
  Acquire directory σ' = (Ok r, σ').
Proof.
  unfold Acquire. destruct (sqlitePool σ !! directory) as [r0|] eqn:Hpool.
  - intros [= <- <-]. by rewrite Hpool.
  - rewrite createSqliteRegistry_spec. case_bool_decide; [done|].
    intros [= <- <-]. unfold LoadOrStore. simpl. rewrite Hpool.
    by rewrite lookup_insert_eq.
Qed.

Lemma Acquire_twice_witness :
  Acquire "blog" (snd (Acquire "blog" Toy.world))
  = (Ok blog_registry, snd (Acquire "blog" Toy.world)).
Proof.
  apply (Acquire_twice "blog" Toy.world). vm_compute. reflexivity.
Defined.





Lemma publish_all_store_ok r ops σ : store_ok r σ -> store_ok r (publish_all r ops σ).
Proof.
  revert σ. induction ops as [|op ops IH]; intros σ Hok; [done|].
  simpl. apply IH. by apply SetPublicationDate_store_ok.
Qed.

(** X5. In the store of a registry [Acquire] created, no name occurs twice,
    whatever calls of [SetPublicationDate] follow: a post has at most one
    publication date. *)
Theorem registry_names_unique directory σ r σ1 ops :
  sqlitePool σ !! directory = None ->
  Acquire directory σ = (Ok r, σ1) ->
  NoDup (names (entries (db_file (DB r)) (publish_all r ops σ1))).
Proof.
  intros Hpool Hacq.
  assert (Hok : store_ok r σ1).
  { unfold Acquire in Hacq. rewrite Hpool, createSqliteRegistry_spec in Hacq.
    case_bool_decide as Hden; [done|].
    destruct (Acquire_first directory σ Hpool Hden) as (r' & σ' & Hacq' & _ & Hok & _).
    unfold Acquire in Hacq'. rewrite Hpool, createSqliteRegistry_spec in Hacq'.
    rewrite (bool_decide_eq_false_2 _ Hden) in Hacq'. congruence. }
  destruct (publish_all_store_ok r ops σ1 Hok) as (d & rows & Hc & Hp & _ & Hnd).
  by rewrite (entries_connect _ _ _ _ Hc Hp).
Qed.

Lemma registry_names_unique_witness :
  NoDup (names (entries "blog/blog.sqlite"
    (publish_all blog_registry
       [(Toy.post "blog/001_a.md" true, None);
        (Toy.post "blog/001_a.md" true, Some new_year);
        (Toy.post "blog/003_c.md" true, Some new_year)]
       (snd (Acquire "blog" Toy.world))))).
Proof.
  apply (registry_names_unique "blog" Toy.world blog_registry).
  - vm_compute. reflexivity.
  - vm_compute. reflexivity.
Defined.



(** ** One render *)

Lemma date_view_error p σ e : date_view p σ = Err e -> registry_error e.
Proof.
  unfold date_view, registry_error. destruct (tracking p σ); [|done].
  case_bool_decide; [|intros [= <-]; right; right; by eexists].
  destruct (sqlitePool σ !! directory_of p) as [r|].
  - unfold connect. destruct (fs σ !! db_file (DB r)) as [[[|c s]|d]|]; simpl.
    + intros [= <-]. right; left; by eexists.
    + intros [= <-]. right; left; by eexists.
    + destruct (posts d); [by destruct (filter _ _)|].
      intros [= <-]. right; left; by eexists.
    + intros [= <-]. right; left; by eexists.
  - case_bool_decide; [|done]. intros [= <-]. left. by eexists.
Qed.

Lemma error_kinds_disjoint e :
  (early_error e -> ~ registry_error e) /\ (early_error e -> ~ late_error e) /\
  (registry_error e -> ~ late_error e).
Proof.
  unfold early_error, registry_error, late_error. repeat split; intros H1 H2;
    destruct H1 as [[? ->]|[->|[[? ->]|[->| ->]]]] || destruct H1 as [[? ->]|[[? ->]|[? ->]]];
    destruct H2 as [[? ?]|[[? ?]|[? ?]]] || destruct H2 as [|[|[|]]]; done.
Qed.

Section one_render.
Context (L : Libs).

Lemma scan_nodes_not_supported nodes heading pars :
  forallb (supported L) nodes = false ->
  exists e, scan_nodes L nodes heading pars = Err e.
Proof.
  revert heading pars. induction nodes as [|c nodes IH]; intros heading pars; [done|].
  simpl. unfold supported, is_heading, is_paragraph.
  destruct (node_kind L c); simpl.
  - destruct heading; [by eexists | apply IH].
  - apply IH.
  - by eexists.
Qed.

(** Extraction succeeds exactly on one heading, at least one paragraph and
    nothing else, and then assigns the heading text and the paragraphs. *)
Lemma extract_ok_iff file p :
  fst (extract L file p) = None <->
  forallb (supported L) (parser_Parse L file) = true /\
  List.length (headings L (parser_Parse L file)) = 1%nat /\
  paragraphs L (parser_Parse L file) <> [].
Proof.
  unfold extract. set (nodes := parser_Parse L file).
  destruct (forallb (supported L) nodes) eqn:Hs.
  - rewrite (scan_nodes_supported L nodes None [] Hs). simpl.
    destruct (headings L nodes) as [|h [|h' hs]] eqn:Hh; simpl.
    + split; [done | by intros (_ & ? & _)].
    + destruct (paragraphs L nodes) eqn:Hp; simpl; [split; [done | by intros (_ & _ & ?)]|].
      done.
    + split; [done | by intros (_ & ? & _)].
  - destruct (scan_nodes_not_supported nodes None [] Hs) as [e ->]. simpl.
    split; [done | by intros (? & _)].
Qed.

Lemma error_of_unfold {W} `{Writer W} (p : blogPost) (w : W) (σ : World) :
  error_of L p w σ =
    match os_ReadFile L (FilePath p) σ with
    | None => Some (ErrReadFile (FilePath p))
    | Some file =>
        match extract L file p with
        | (Some e, _) => Some e
        | (None, p1) =>
            match date_view p σ with
            | Err e => Some e
            | Ok None => Some PanicNilPointer
            | Ok (Some dt) => fst (fst (finish L p1 w dt))
            end
        end
    end.
Proof.
  unfold error_of. rewrite WriteHtml_unfold.
  destruct (os_ReadFile L (FilePath p) σ) as [file|]; [|done]. simpl.
  pose proof (extract_post L file p) as Hx.
  destruct (extract L file p) as [[ex|] p1]; [done|]. destruct Hx as (Hf & Htr & _).
  rewrite (resolve_dtPosted_post p p1 _ Hf Htr).
  change (date_view p σ) with (date_view p (set_htmlRenderer true σ)).
  rewrite <- resolve_dtPosted_view.
  destruct (resolve_dtPosted p (set_htmlRenderer true σ)) as [[[dt|]|er] σ1]; try done.
  simpl. by destruct (finish L p1 w dt) as [[? ?] ?].
Qed.

Lemma finish_error {W} `{Writer W} (p : blogPost) (w : W) dt e :
  fst (fst (finish L p w dt)) = Some e -> late_error e.
Proof.
  unfold finish, late_error. destruct (template_Parse L _) as [|[t|]]; simpl.
  - intros [= <-]. auto.
  - destruct (template_Execute L t _) as [buf|]; simpl.
    + destruct (io_Write w buf) as [w' []]; simpl; [done|]. intros [= <-]. auto.
    + intros [= <-]. auto.
  - intros [= <-]. auto.
Qed.

End one_render.

(** X7. For a readable file, [WriteHtml] gets past extraction exactly
    when the document is one heading, at least one paragraph and no other
    top-level node; the content of the post is then the rendered paragraphs
    in the order of the document, with nothing between them, and its heading
    text what the replacer leaves of the rendered heading. *)
Theorem well_formed_document_extracts {W} `{Writer W} (L : Libs) (p : blogPost) (w : W)
    (σ : World) (file : string) :
  os_ReadFile L (FilePath p) σ = Some file ->
  let nodes := parser_Parse L file in
  ((forall e, error_of L p w σ = Some e -> ~ early_error e) <->
   (forallb (supported L) nodes = true /\ List.length (headings L nodes) = 1%nat /\
    paragraphs L nodes <> [])) /\
  (forallb (supported L) nodes = true -> paragraphs L nodes <> [] ->
   forall h, headings L nodes = [h] ->
     Heading (post_of L p w σ) = Replace heading_replacer (markdown_Render L h) /\
     Content (post_of L p w σ) = join (markdown_Render L <$> paragraphs L nodes)).
Proof.
  intros Hread nodes. subst nodes. split.
  - rewrite <- (extract_ok_iff L file p). rewrite error_of_unfold, Hread.
    destruct (extract L file p) as [[ex|] p1] eqn:Hex; simpl.
    + split; [|done]. intros Hne. exfalso. apply (Hne ex eq_refl).
      destruct (extract_error L file p ex p1 Hex) as [->|[[ty ->]|[->| ->]]];
        unfold early_error; eauto 10.
    + split; [done|]. intros _ e He.
      destruct (date_view p σ) as [[dt|]|er] eqn:Hv.
      * apply finish_error in He. intros Hearly.
        by apply (proj1 (proj2 (error_kinds_disjoint e)) Hearly).
      * by pose proof (date_view_result p σ) as Hr; rewrite Hv in Hr.
      * injection He as <-. apply date_view_error in Hv. intros Hearly.
        by apply (proj1 (error_kinds_disjoint er) Hearly).
  - intros Hs Hp h Hh. unfold post_of. rewrite WriteHtml_unfold, Hread. simpl.
    unfold extract. rewrite (scan_nodes_supported L _ None [] Hs), Hh. simpl.
    destruct (paragraphs L (parser_Parse L file)) as [|q ps] eqn:Hps; [done|].
    destruct (resolve_dtPosted _ _) as [[[dt|]|er] σ1]; try done.
    unfold finish. destruct (template_Parse L _) as [|[t|]]; try done.
    destruct (template_Execute L t _) as [buf|]; [|done].
    by destruct (io_Write w buf).
Qed.

Lemma well_formed_document_extracts_witness :
  Heading (post_of Toy.libs (Toy.post "blog/001_a.md" false) "" Toy.world)
    = Replace heading_replacer ("<h2>Hello <em>world</em></h2>" +:+ Toy.nl) /\
  Content (post_of Toy.libs (Toy.post "blog/001_a.md" false) "" Toy.world)
    = "<p>Some <em>text</em>.</p>" +:+ Toy.nl.
Proof.
  refine (proj2 (well_formed_document_extracts Toy.libs (Toy.post "blog/001_a.md" false) ""
                   Toy.world ("## Hello <em>world</em>" +:+ Toy.nl +:+ "Some <em>text</em>.")
                   eq_refl) eq_refl _ (Toy.THeading 2 "Hello <em>world</em>") eq_refl).
  vm_compute. discriminate.
Defined.

(** X8. The file is read and the document checked before the registry is
    looked at: when [WriteHtml] fails because the file cannot be read or the
    document has not the shape of a post, no file was written, the pool is
    as before, no database was opened and the writer was not called, also
    with tracking on. *)
Theorem early_failure_touches_nothing {W} `{Writer W} (L : Libs) (p : blogPost) (w : W)
    (σ : World) (e : error) :
  error_of L p w σ = Some e ->
  early_error e ->
  fs (snd (WriteHtml L p w σ)) = fs σ /\
  sqlitePool (snd (WriteHtml L p w σ)) = sqlitePool σ /\
  opened (snd (WriteHtml L p w σ)) = opened σ /\
  snd (fst (WriteHtml L p w σ)) = w.
Proof.
  intros He Hearly. rewrite error_of_unfold in He. rewrite WriteHtml_unfold.
  destruct (os_ReadFile L (FilePath p) σ) as [file|]; [|done]. simpl.
  destruct (extract L file p) as [[ex|] p1]; [done|]. exfalso.
  destruct (date_view p σ) as [[dt|]|er] eqn:Hv.
  - apply finish_error in He. by apply (proj1 (proj2 (error_kinds_disjoint e)) Hearly).
  - by pose proof (date_view_result p σ) as Hr; rewrite Hv in Hr.
  - injection He as <-. apply date_view_error in Hv.
    by apply (proj1 (error_kinds_disjoint er) Hearly).
Qed.

Lemma early_failure_touches_nothing_witness :
  fs (snd (WriteHtml Toy.libs (Toy.post "blog/004_d.md" true) "" Toy.world)) = fs Toy.world /\
  sqlitePool (snd (WriteHtml Toy.libs (Toy.post "blog/004_d.md" true) "" Toy.world))
    = sqlitePool Toy.world /\
  opened (snd (WriteHtml Toy.libs (Toy.post "blog/004_d.md" true) "" Toy.world))
    = opened Toy.world /\
  snd (fst (WriteHtml Toy.libs (Toy.post "blog/004_d.md" true) "" Toy.world)) = "".
Proof.
  apply (early_failure_touches_nothing Toy.libs (Toy.post "blog/004_d.md" true) "" Toy.world
           ErrNoParagraphs).
  - vm_compute. reflexivity.
  - right; right; right; right. reflexivity.
Defined.

(** X9. With tracking off, [WriteHtml] does not touch the registry: no
    file is written, the pool is as before, no database is opened, the call
    cannot fail with a registry error, and a successful call dates the post
    with the date of [time.Now()]. *)
Theorem untracked_render_touches_nothing {W} `{Writer W} (L : Libs) (p : blogPost) (w : W)
    (σ : World) :
  tracking p σ = false ->
  fs (snd (WriteHtml L p w σ)) = fs σ /\
  sqlitePool (snd (WriteHtml L p w σ)) = sqlitePool σ /\
  opened (snd (WriteHtml L p w σ)) = opened σ /\
  (forall e, error_of L p w σ = Some e -> ~ registry_error e) /\
  (error_of L p w σ = None ->
   DtPosted (post_of L p w σ) = DateOnly_text (Format_DateOnly (time_Now (clock σ)))).
Proof.
  intros Ht. unfold error_of, post_of. rewrite WriteHtml_unfold.
  destruct (os_ReadFile L (FilePath p) σ) as [file|].
  2:{ repeat split; try done. intros e [= <-] [[? ?]|[[? ?]|[? ?]]]; done. }
  simpl. pose proof (extract_post L file p) as Hx.
  destruct (extract L file p) as [[ex|] p1] eqn:Hex; destruct Hx as (Hf & Htr & _).
  { repeat split; try done. intros e [= <-].
    destruct (extract_error L file p ex p1 Hex) as [->|[[ty ->]|[->| ->]]];
      intros [[? ?]|[[? ?]|[? ?]]]; done. }
  rewrite (resolve_dtPosted_post p p1 _ Hf Htr).
  rewrite (resolve_dtPosted_untracked p (set_htmlRenderer true σ) Ht). simpl.
  pose proof (finish_error L p1 w (time_Now (clock σ))) as Hfin.
  assert (Hd : DtPosted (snd (fst (finish L p1 w (time_Now (clock σ)))))
               = DateOnly_text (Format_DateOnly (time_Now (clock σ)))).
  { unfold finish. destruct (template_Parse L _) as [|[t|]]; try done.
    destruct (template_Execute L t _) as [buf|]; [|done]. by destruct (io_Write w buf). }
  destruct (finish L p1 w (time_Now (clock σ))) as [[ef p2] wf]. simpl in *.
  repeat split; try done.
  intros e ->. intros Hr.
  by apply (proj2 (proj2 (error_kinds_disjoint e)) Hr), Hfin.
Qed.

Lemma untracked_render_touches_nothing_witness :
  fs (snd (WriteHtml Toy.libs (Toy.post "blog/001_a.md" false) "" Toy.world)) = fs Toy.world /\
  sqlitePool (snd (WriteHtml Toy.libs (Toy.post "blog/001_a.md" false) "" Toy.world))
    = sqlitePool Toy.world /\
  opened (snd (WriteHtml Toy.libs (Toy.post "blog/001_a.md" false) "" Toy.world))
    = opened Toy.world /\
  (forall e, error_of Toy.libs (Toy.post "blog/001_a.md" false) "" Toy.world = Some e ->
             ~ registry_error e) /\
  (error_of Toy.libs (Toy.post "blog/001_a.md" false) "" Toy.world = None ->
   DtPosted (post_of Toy.libs (Toy.post "blog/001_a.md" false) "" Toy.world)
     = DateOnly_text (Format_DateOnly Toy.midday)).
Proof.
  apply (untracked_render_touches_nothing Toy.libs (Toy.post "blog/001_a.md" false) ""
           Toy.world).
  vm_compute. reflexivity.
Defined.

(** X10. [WriteHtml] renders into a buffer of its own and calls [Write] at
    most once, with the whole fragment: a successful call wrote the fragment
    a [bytes.Buffer] would receive, a call that fails with the error of the
    writer attempted that one write, and any other failure leaves the writer
    as it was. *)
Theorem WriteHtml_writes_once {W} `{Writer W} (L : Libs) (p : blogPost) (w : W) (σ : World) :
  match error_of L p w σ with
  | None =>
      exists html, html_of L p σ = Some html /\
                   io_Write w html = (snd (fst (WriteHtml L p w σ)), true)
  | Some ErrWriter =>
      exists html, html_of L p σ = Some html /\
                   io_Write w html = (snd (fst (WriteHtml L p w σ)), false)
  | Some _ => snd (fst (WriteHtml L p w σ)) = w
  end.
Proof.
  unfold error_of, html_of. rewrite WriteHtml_unfold.
  destruct (os_ReadFile L (FilePath p) σ) as [file|]; [|done]. simpl.
  pose proof (extract_post L file p) as Hx.
  destruct (extract L file p) as [[ex|] p1] eqn:Hex; destruct Hx as (Hf & Htr & _).
  { destruct (extract_error L file p ex p1 Hex) as [->|[[ty ->]|[->| ->]]]; done. }
  rewrite (resolve_dtPosted_post p p1 _ Hf Htr).
  change (date_view p σ) with (date_view p (set_htmlRenderer true σ)).
  pose proof (date_view_error p (set_htmlRenderer true σ)) as Herr.
  rewrite <- resolve_dtPosted_view in *.
  destruct (resolve_dtPosted p (set_htmlRenderer true σ)) as [[[dt|]|er] σ1]; simpl in *.
  - unfold finish, render_template. simpl.
    destruct (template_Parse L (template p1)) as [|[t|]]; try done.
    destruct (template_Execute L t _) as [buf|]; [|done].
    destruct (io_Write w buf) as [w' []] eqn:Hio; simpl; by exists buf.
  - done.
  - destruct (Herr er eq_refl) as [[? ->]|[[? ->]|[? ->]]]; done.
Qed.

Lemma same_static_set p q h c d :
  same_static p q ->
  set_DtPosted d (set_Content c (set_Heading h p))
  = set_DtPosted d (set_Content c (set_Heading h q)).
Proof.
  intros (Hf & Ht & Hd & Htm). destruct p, q. simpl in *. by subst.
Qed.

(** X11. What [WriteHtml] left in [Heading], [Content] and [DtPosted] at an
    earlier call does not influence a later one: two posts that agree on
    file path, tracking flag and template get the same error, the same
    bytes written and the same world, and on success the same fields. *)
Theorem stale_fields_do_not_matter {W} `{Writer W} (L : Libs) (p q : blogPost) (w : W)
    (σ : World) :
  same_static p q ->
  error_of L p w σ = error_of L q w σ /\
  snd (fst (WriteHtml L p w σ)) = snd (fst (WriteHtml L q w σ)) /\
  snd (WriteHtml L p w σ) = snd (WriteHtml L q w σ) /\
  (error_of L p w σ = None -> post_of L p w σ = post_of L q w σ).
Proof.
  intros Hst. pose proof Hst as (Hf & Ht & Hd & Htm).
  unfold error_of, post_of. rewrite !WriteHtml_unfold. rewrite <- Hf.
  destruct (os_ReadFile L (FilePath p) σ) as [file|]; [|by rewrite Hf]. simpl.
  destruct (extract L file p) as [[ex|] p1] eqn:Hex.
  { destruct (extract_failed L file p ex p1 Hex q) as [q1 ->]. done. }
  destruct (extract_ok L file p p1 Hex) as (h & c & Hall).
  rewrite Hall in Hex. injection Hex as <-. rewrite (Hall q).
  rewrite (resolve_dtPosted_post q (set_Content c (set_Heading h p)))
    by (simpl; done).
  rewrite (resolve_dtPosted_post q (set_Content c (set_Heading h q)) _ eq_refl eq_refl).
  destruct (resolve_dtPosted q (set_htmlRenderer true σ)) as [[[dt|]|er] σ1]; try done.
  unfold finish. by rewrite (same_static_set p q h c _ Hst).
Qed.

Lemma stale_fields_do_not_matter_witness :
  error_of Toy.libs (post_of Toy.libs (Toy.post "blog/001_a.md" true) "" Toy.world) ""
    Toy.world
  = error_of Toy.libs (Toy.post "blog/001_a.md" true) "" Toy.world.
Proof.
  apply (stale_fields_do_not_matter Toy.libs
           (post_of Toy.libs (Toy.post "blog/001_a.md" true) "" Toy.world)
           (Toy.post "blog/001_a.md" true) "" Toy.world).
  vm_compute. repeat split.
Defined.

(** ** The sequential render *)

(** Rendering one collection after another into the same buffer. *)
Lemma RenderPosts_loop_app (L : Libs) ps1 ps2 buf σ :
  RenderPosts_loop L (ps1 ++ ps2) buf σ =
    match RenderPosts_loop L ps1 buf σ with
    | ((out, None), ps1', σ1) =>
        let '(r, ps2', σ2) := RenderPosts_loop L ps2 out σ1 in (r, ps1' ++ ps2', σ2)
    | ((out, Some e), ps1', σ1) => ((out, Some e), ps1' ++ ps2, σ1)
    end.
Proof.
  revert buf σ. induction ps1 as [|post ps1 IH]; intros buf σ.
  - simpl. by destruct (RenderPosts_loop L ps2 buf σ) as [[r ps2'] σ2].
  - simpl. destruct (WriteHtml L post buf σ) as [[[[e|] post'] buf'] σ']; [done|].
    rewrite IH.
    destruct (RenderPosts_loop L ps1 buf' σ') as [[[out [e|]] ps1'] σ1]; [done|].
    by destruct (RenderPosts_loop L ps2 out σ1) as [[r ps2'] σ2].
Qed.

(** X12. [RenderPosts] stops at the first post that fails: it returns no
    bytes and an error that names the file of that post, the world is the
    one that post left, and the posts after it were not rendered (they and
    their registry entries are as before). *)
Theorem RenderPosts_fail_fast (L : Libs) (pre : list blogPost) (post : blogPost)
    (rest : list blogPost) (dir : string) (σ : World) out pre' σ1 e post' out' σ2 :
  RenderPosts_loop L pre "" σ = ((out, None), pre', σ1) ->
  WriteHtml L post out σ1 = (Some e, post', out', σ2) ->
  RenderPosts L (mkBlog (pre ++ post :: rest) dir) σ
  = (("", Some (ErrRenderPost (GetFilePath post) e)),
     mkBlog (pre' ++ post' :: rest) dir, σ2).
Proof.
  intros Hpre Hpost. unfold RenderPosts. simpl.
  rewrite RenderPosts_loop_app, Hpre. simpl. by rewrite Hpost.
Qed.

Lemma RenderPosts_fail_fast_witness :
  fst (fst (RenderPosts Toy.libs
              (mkBlog ([Toy.post "blog/001_a.md" true] ++ Toy.post "blog/002_b.md" true
                         :: [Toy.post "blog/003_c.md" true]) "blog") Toy.world))
  = ("", Some (ErrRenderPost "blog/002_b.md" (ErrUnexpectedNode "*ast.List"))).
Proof.
  erewrite (RenderPosts_fail_fast Toy.libs [Toy.post "blog/001_a.md" true]
              (Toy.post "blog/002_b.md" true) [Toy.post "blog/003_c.md" true] "blog"
              Toy.world).
  - reflexivity.
  - vm_compute. reflexivity.
  - vm_compute. reflexivity.
Defined.

(** ** Building twice in one process *)


Lemma pinned_static p q σ : FilePath p = FilePath q -> pinned p σ -> pinned q σ.
Proof.
  intros Hf. unfold pinned, directory_of, GetName, GetFilePath. by rewrite Hf.
Qed.



Section rebuild.
Context (L : Libs).





End rebuild.





(** ** Constructors and options *)

Section options.
Context (L : Libs) (E : Host).


(** What one exported option does, whatever the post. *)
Lemma exported_shape o σ :
  exported L o ->
  (exists t, forall b, o b σ = Made (set_template t b)) \/
  (o = WithPublicationTracking /\ forall b, o b σ = Made (set_publicationTracking true b)) \/
  (exists tf, o = WithTemplateFile L tf /\ os_ReadFile L tf σ = None /\
              forall b, o b σ = Failed (ErrOsReadFile tf)).
Proof.
  intros [[s ->] | [[tf ->] | ->]].
  - left. by exists s.
  - unfold WithTemplateFile. destruct (os_ReadFile L tf σ) as [c|] eqn:Hr.
    + left. by exists c.
    + right. right. by exists tf.
  - right. left. done.
Qed.

Lemma exported_cases o b σ :
  exported L o ->
  (exists t, o b σ = Made (set_template t b)) \/
  (o = WithPublicationTracking /\ o b σ = Made (set_publicationTracking true b)) \/
  (exists tf, o = WithTemplateFile L tf /\ os_ReadFile L tf σ = None /\
              o b σ = Failed (ErrOsReadFile tf)).
Proof.
  intros Ho. destruct (exported_shape o σ Ho) as [[t Ht] | [[-> Ht] | (tf & -> & Hr & Ht)]].
  - left. by exists t.
  - right. by left.
  - right. right. by exists tf.
Qed.

Lemma apply_options_fields opts b σ p :
  Forall (exported L) opts -> apply_options opts b σ = Made p ->
  FilePath p = FilePath b /\ PublicationDate p = PublicationDate b /\
  Heading p = Heading b /\ Content p = Content b /\ DtPosted p = DtPosted b /\
  (publicationTracking p = true <->
   publicationTracking b = true \/ WithPublicationTracking ∈ opts).
Proof.
  intros Hex. revert b. induction Hex as [|o opts Ho _ IH]; intros b.
  - simpl. intros [= <-]. repeat split; try done; [by left|].
    intros [|Hin]; [done | inversion Hin].
  - simpl. destruct (exported_cases o b σ Ho) as [[t E0] | [[-> E0] | (tf & _ & _ & E0)]];
      rewrite E0; [| |done].
    + intros Hp. destruct (IH _ Hp) as (-> & -> & -> & -> & -> & Htr). simpl in *.
      repeat split; try done.
      * intros Hpt. apply Htr in Hpt as [|]; [by left | right; by right].
      * intros [Hb | Hin]; apply Htr; [by left|].
        apply elem_of_cons in Hin as [Heq|Hin]; [|by right].
        left. subst o. unfold WithPublicationTracking in E0.
        apply (f_equal (fun r => match r with
                                 | Made x => publicationTracking x
                                 | Failed _ => false
                                 end)) in E0.
        by simpl in E0.
    + intros Hp. destruct (IH _ Hp) as (-> & -> & -> & -> & -> & Htr). simpl in *.
      repeat split; try done.
      * intros _. right. by left.
      * intros _. apply Htr. by left.
Qed.

End options.


(** X14. A post made by [NewBlogPost] with exported options has the path
    it was made for and no heading, content or date yet, and its tracking
    flag is set exactly when [WithPublicationTracking] is among the options:
    no option switches tracking off again. *)
Theorem NewBlogPost_fields (L : Libs) (E : Host) (fp : string) (opts : list post_option)
    (σ : World) (p : blogPost) :
  Forall (exported L) opts ->
  NewBlogPost E fp opts σ = Made p ->
  GetFilePath p = fp /\ PublicationDate p = None /\
  Heading p = "" /\ Content p = "" /\ DtPosted p = "" /\
  (publicationTracking p = true <-> WithPublicationTracking ∈ opts).
Proof.
  intros Hex. unfold NewBlogPost, GetFilePath.
  destruct (os_Stat E fp σ); try done; intros Hp;
    destruct (apply_options_fields L opts _ σ p Hex Hp) as (-> & -> & -> & -> & -> & Htr);
    simpl in *; repeat split; try done;
    try (intros Hpt; by apply Htr in Hpt as [|]); intros Hin; apply Htr; by right.
Qed.

Lemma NewBlogPost_fields_witness :
  GetFilePath (Toy.post "blog/001_a.md" true) = "blog/001_a.md" /\
  PublicationDate (Toy.post "blog/001_a.md" true) = None /\
  Heading (Toy.post "blog/001_a.md" true) = "" /\
  Content (Toy.post "blog/001_a.md" true) = "" /\
  DtPosted (Toy.post "blog/001_a.md" true) = "" /\
  (publicationTracking (Toy.post "blog/001_a.md" true) = true <->
   WithPublicationTracking ∈ [WithPublicationTracking]).
Proof.
  apply (NewBlogPost_fields Toy.libs toy_host "blog/001_a.md" [WithPublicationTracking]
           Toy.world).
  - constructor; [right; right; reflexivity | constructor].
  - vm_compute. reflexivity.
Defined.



(** X16. [NewBlogPost] with exported options fails exactly when [os.Stat]
    fails for the path or one of the options is a [WithTemplateFile] whose
    file cannot be read, also when a later option would override that
    template.  A path that is a directory is accepted. *)
Theorem NewBlogPost_fails_iff (L : Libs) (E : Host) (fp : string)
    (opts : list post_option) (σ : World) :
  Forall (exported L) opts ->
  ((exists e, NewBlogPost E fp opts σ = Failed e) <->
   os_Stat E fp σ = StatNotExist \/ os_Stat E fp σ = StatError \/
   exists tf, WithTemplateFile L tf ∈ opts /\ os_ReadFile L tf σ = None).
Proof.
  intros Hex.
  assert (Hloop : forall b,
            (exists e, apply_options opts b σ = Failed e) <->
            exists tf, WithTemplateFile L tf ∈ opts /\ os_ReadFile L tf σ = None).
  { induction Hex as [|o opts Ho _ IH]; intros b.
    - simpl. split; [by intros [e ?] | intros (tf & Hin & _); inversion Hin].
    - simpl. destruct (exported_cases L o b σ Ho)
        as [[t E0] | [[-> E0] | (tf & -> & Hr & E0)]]; rewrite E0.
      + rewrite IH. split.
        * intros (tf & Hin & Hr). exists tf. split; [by right | done].
        * intros (tf & Hin & Hr). exists tf. split; [|done].
          apply elem_of_cons in Hin as [Heq|Hin]; [|done]. exfalso.
          subst o. unfold WithTemplateFile in E0. by rewrite Hr in E0.
      + rewrite IH. split.
        * intros (tf & Hin & Hr). exists tf. split; [by right | done].
        * intros (tf & Hin & Hr). exists tf. split; [|done].
          apply elem_of_cons in Hin as [Heq|Hin]; [|done]. exfalso.
          apply (f_equal (fun f => f b σ)) in Heq.
          unfold WithTemplateFile in Heq. by rewrite Hr in Heq.
      + split; [|by eexists]. intros _. exists tf. split; [by left | done]. }
  unfold NewBlogPost. destruct (os_Stat E fp σ).
  - rewrite Hloop. split; [by right; right | by intros [|[|]]].
  - rewrite Hloop. split; [by right; right | by intros [|[|]]].
  - split; [by left | by eexists].
  - split; [by right; left | by eexists].
Qed.

Lemma NewBlogPost_fails_iff_witness :
  (exists e, NewBlogPost toy_host "blog/001_a.md"
               [WithTemplateFile Toy.libs "post.tmpl"; WithTemplateString "x"] Toy.world
             = Failed e) <->
  os_Stat toy_host "blog/001_a.md" Toy.world = StatNotExist \/
  os_Stat toy_host "blog/001_a.md" Toy.world = StatError \/
  exists tf, WithTemplateFile Toy.libs tf
               ∈ [WithTemplateFile Toy.libs "post.tmpl"; WithTemplateString "x"] /\
             os_ReadFile Toy.libs tf Toy.world = None.
Proof.
  apply (NewBlogPost_fails_iff Toy.libs toy_host "blog/001_a.md"
           [WithTemplateFile Toy.libs "post.tmpl"; WithTemplateString "x"] Toy.world).
  constructor; [right; left; by exists "post.tmpl"|].
  constructor; [left; by exists "x" | constructor].
Defined.

(** ** The default template *)

Lemma resolve_dtPosted_set_Template p t σ :
  resolve_dtPosted p (set_Template t σ)
  = (fst (resolve_dtPosted p σ), set_Template t (snd (resolve_dtPosted p σ))).
Proof.
  unfold resolve_dtPosted. simpl.
  destruct (EnablePublicationTracking (DefaultOptions σ) || publicationTracking p); [|done].
  case_bool_decide; [|done].
  unfold Acquire. simpl.
  destruct (sqlitePool σ !! filepath_Dir (GetFilePath p)) as [r|].
  - unfold GetPublicationDate, SetPublicationDate, connect. simpl.
    destruct (fs σ !! db_file (DB r)) as [f|]; [|done].
    destruct (sqlite_open f) as [d|e]; [|done].
    destruct (sql_select (GetName p) d) as [[|dt l]|e]; try done.
    destruct (sql_insert (GetName p) _ d) as [[d' [|x [|y l]]]|e]; done.
  - unfold createSqliteRegistry, os_Create. simpl.
    case_bool_decide; [done|]. simpl.
    unfold db_Exec_schema, connect. simpl. rewrite !lookup_insert_eq. simpl.
    destruct (exec_schema empty_db) as [[e|] d'] eqn:Hx; [done|]. simpl.
    unfold GetPublicationDate, SetPublicationDate, connect. simpl.
    rewrite !lookup_insert_eq. simpl.
    destruct (sql_select (GetName p) d') as [[|dt l]|e]; try done.
Qed.

Lemma WriteHtml_set_Template {W} `{Writer W} (L : Libs) (p : blogPost) (w : W) (σ : World) t :
  WriteHtml L p w (set_Template t σ)
  = (fst (WriteHtml L p w σ), set_Template t (snd (WriteHtml L p w σ))).
Proof.
  rewrite !WriteHtml_unfold.
  change (os_ReadFile L (FilePath p) (set_Template t σ)) with (os_ReadFile L (FilePath p) σ).
  destruct (os_ReadFile L (FilePath p) σ) as [file|]; [|done]. simpl.
  destruct (extract L file p) as [[ex|] p1]; [done|].
  change (set_htmlRenderer true (set_Template t σ))
    with (set_Template t (set_htmlRenderer true σ)).
  rewrite resolve_dtPosted_set_Template.
  destruct (resolve_dtPosted p1 (set_htmlRenderer true σ)) as [[[dt|]|er] σ1]; try done.
  simpl. by destruct (finish L p1 w dt) as [[e p2] w'].
Qed.

(** X17. [WriteHtml] does not look at [DefaultOptions.Template]: the
    template was copied into the post when it was made, so assigning another
    default template afterwards changes neither the error, nor the fields,
    nor the bytes written, nor what the call leaves behind. *)
Theorem WriteHtml_ignores_default_template {W} `{Writer W} (L : Libs) (p : blogPost) (w : W)
    (σ : World) (t : string) :
  fst (WriteHtml L p w (set_Template t σ)) = fst (WriteHtml L p w σ) /\
  snd (WriteHtml L p w (set_Template t σ)) = set_Template t (snd (WriteHtml L p w σ)).
Proof. by rewrite WriteHtml_set_Template. Qed.

(** ** Collections made by [NewBlog] *)



Lemma split_path_entry d n :
  entry_name n -> split_path (filepath_Join d n) = (Some d, n).
Proof.
  intros [Hne Hn]. unfold filepath_Join.
  change ("/" +:+ n) with (String "/" n).
  induction d as [|c d IH].
  - rewrite append_nil. simpl. by rewrite Hn.
  - rewrite append_cons. simpl. by rewrite IH.
Qed.

Lemma filepath_Dir_entry d n :
  d <> "" -> entry_name n -> filepath_Dir (filepath_Join d n) = d.
Proof.
  intros Hd Hn. unfold filepath_Dir. rewrite (split_path_entry d n Hn). simpl.
  by destruct d.
Qed.

Lemma filepath_Base_entry d n : entry_name n -> filepath_Base (filepath_Join d n) = n.
Proof.
  intros Hn. unfold filepath_Base. rewrite (split_path_entry d n Hn). simpl.
  destruct Hn as [Hne _]. by destruct n.
Qed.

Section collections.
Context (L : Libs) (E : Host).

Lemma apply_options_uniform opts b1 b2 σ p1 p2 :
  Forall (exported L) opts ->
  template b1 = template b2 -> publicationTracking b1 = publicationTracking b2 ->
  apply_options opts b1 σ = Made p1 -> apply_options opts b2 σ = Made p2 ->
  template p1 = template p2 /\ publicationTracking p1 = publicationTracking p2.
Proof.
  intros Hex. revert b1 b2. induction Hex as [|o opts Ho _ IH]; intros b1 b2 Ht Htr.
  - simpl. by intros [= <-] [= <-].
  - simpl.
    destruct (exported_shape L o σ Ho) as [[t E0] | [[-> E0] | (tf & _ & _ & E0)]];
      rewrite !E0; [| |done].
    + by apply IH.
    + by apply IH.
Qed.

Lemma NewBlogPost_uniform fp1 fp2 opts σ p1 p2 :
  Forall (exported L) opts ->
  NewBlogPost E fp1 opts σ = Made p1 -> NewBlogPost E fp2 opts σ = Made p2 ->
  template p1 = template p2 /\ publicationTracking p1 = publicationTracking p2.
Proof.
  intros Hex. unfold NewBlogPost.
  destruct (os_Stat E fp1 σ); try done; destruct (os_Stat E fp2 σ); try done;
    by apply apply_options_uniform.
Qed.

Lemma NewBlogPost_path fp opts σ p :
  Forall (exported L) opts -> NewBlogPost E fp opts σ = Made p -> FilePath p = fp.
Proof.
  intros Hex. unfold NewBlogPost.
  destruct (os_Stat E fp σ); try done; intros Hp;
    by destruct (apply_options_fields L opts _ σ p Hex Hp) as (-> & _).
Qed.

(** The posts the loop of [NewBlog] makes: one for each file, in order. *)
Lemma NewBlog_loop_spec files opts σ :
  match NewBlog_loop E files opts σ with
  | Made posts => Forall2 (fun md p => NewBlogPost E md opts σ = Made p) files posts
  | Failed e =>
      exists md e', md ∈ files /\ NewBlogPost E md opts σ = Failed e' /\
                    e = ErrNewBlogPost e'
  end.
Proof.
  induction files as [|md files IH]; simpl; [constructor|].
  destruct (NewBlogPost E md opts σ) as [p|e] eqn:Hp.
  - destruct (NewBlog_loop E files opts σ) as [posts|e].
    + by constructor.
    + destruct IH as (md' & e' & Hin & Hf & ->). exists md', e'. split; [by right | done].
  - exists md, e. split; [by left | done].
Qed.

Lemma NewBlog_Made directory opts σ b :
  NewBlog E directory opts σ = Made b ->
  os_Stat E directory σ = StatDir /\
  exists files,
    filepath_Glob E (filepath_Join directory "*.md") σ = Some files /\ files <> [] /\
    Forall2 (fun md p => NewBlogPost E md opts σ = Made p) files (Posts b) /\
    Directory b = directory.
Proof.
  unfold NewBlog. destruct (os_Stat E directory σ); try done.
  destruct (filepath_Glob E _ σ) as [[|md files]|]; try done.
  pose proof (NewBlog_loop_spec (md :: files) opts σ) as Hloop.
  destruct (NewBlog_loop E (md :: files) opts σ) as [posts|e]; [|done].
  intros [= <-]. split; [done|]. by exists (md :: files).
Qed.

Lemma NewBlog_paths directory opts σ b :
  Forall (exported L) opts -> NewBlog E directory opts σ = Made b ->
  filepath_Glob E (filepath_Join directory "*.md") σ = Some (GetFilePath <$> Posts b).
Proof.
  intros Hex Hb. destruct (NewBlog_Made _ _ _ _ Hb) as (_ & files & -> & _ & Hall & _).
  f_equal. induction Hall as [|md p files posts Hp _ IH]; [done|].
  rewrite fmap_cons, <- IH. unfold GetFilePath. by rewrite (NewBlogPost_path md opts σ p Hex Hp).
Qed.


End collections.

(** X18. A collection made by [NewBlog] with exported options has the
    directory it was made for and one post for each file the search for
    [*.md] in that directory found, in the order of the search, at least
    one; all its posts have the same template and the same tracking flag. *)
Theorem NewBlog_posts (L : Libs) (E : Host) (directory : string) (opts : list post_option)
    (σ : World) (b : blog) :
  Forall (exported L) opts ->
  NewBlog E directory opts σ = Made b ->
  GetDirectory b = directory /\ GetBlogPosts b <> [] /\
  filepath_Glob E (filepath_Join directory "*.md") σ
    = Some (GetFilePath <$> GetBlogPosts b) /\
  (forall p q, p ∈ GetBlogPosts b -> q ∈ GetBlogPosts b ->
               template p = template q /\ publicationTracking p = publicationTracking q).
Proof.
  intros Hex Hb. unfold GetDirectory, GetBlogPosts.
  destruct (NewBlog_Made E _ _ _ _ Hb) as (_ & files & Hg & Hne & Hall & Hd).
  split; [done|]. split.
  { intros Hnil. rewrite Hnil in Hall. inversion Hall. by subst. }
  split; [exact (NewBlog_paths L E directory opts σ b Hex Hb)|].
  intros p q Hp Hq.
  apply list_elem_of_lookup in Hp as [i Hp]. apply list_elem_of_lookup in Hq as [j Hq].
  destruct (Forall2_lookup_r _ _ _ _ _ Hall Hp) as (mdp & _ & Hmp).
  destruct (Forall2_lookup_r _ _ _ _ _ Hall Hq) as (mdq & _ & Hmq).
  by apply (NewBlogPost_uniform L E mdp mdq opts σ).
Qed.

Lemma NewBlog_posts_witness :
  exists b,
    NewBlog toy_host "blog" [WithPublicationTracking] Toy.world = Made b /\
    GetDirectory b = "blog" /\ GetBlogPosts b <> [] /\
    filepath_Glob toy_host (filepath_Join "blog" "*.md") Toy.world
      = Some (GetFilePath <$> GetBlogPosts b) /\
    (forall p q, p ∈ GetBlogPosts b -> q ∈ GetBlogPosts b ->
                 template p = template q /\ publicationTracking p = publicationTracking q).
Proof.
  eexists. split; [vm_compute; reflexivity|].
  apply (NewBlog_posts Toy.libs toy_host "blog" [WithPublicationTracking] Toy.world).
  - constructor; [right; right; reflexivity | constructor].
  - vm_compute. reflexivity.
Defined.

(** X19. [NewBlog] fails exactly when the path is not a directory that
    [os.Stat] can see, the search for Markdown files fails or finds nothing,
    or [NewBlogPost] fails for one of the files found: one such file makes
    the whole collection fail. *)
Theorem NewBlog_fails_iff (E : Host) (directory : string) (opts : list post_option)
    (σ : World) :
  (exists e, NewBlog E directory opts σ = Failed e) <->
  os_Stat E directory σ <> StatDir \/
  filepath_Glob E (filepath_Join directory "*.md") σ = None \/
  filepath_Glob E (filepath_Join directory "*.md") σ = Some [] \/
  exists files md e,
    filepath_Glob E (filepath_Join directory "*.md") σ = Some files /\
    md ∈ files /\ NewBlogPost E md opts σ = Failed e.
Proof.
  unfold NewBlog. destruct (os_Stat E directory σ).
  2-4: split; [intros _; by left | intros _; by eexists].
  destruct (filepath_Glob E _ σ) as [[|md files]|].
  - split; [intros _; right; right; by left | intros _; by eexists].
  - pose proof (NewBlog_loop_spec E (md :: files) opts σ) as Hloop.
    destruct (NewBlog_loop E (md :: files) opts σ) as [posts|e].
    + split; [by intros [e ?]|]. intros [?|[?|[?|(fs' & md' & e & [= <-] & Hin & Hf)]]]; try done.
      apply list_elem_of_lookup in Hin as [i Hi].
      destruct (Forall2_lookup_l _ _ _ _ _ Hloop Hi) as (p & _ & Hp). congruence.
    + split; [|intros _; by eexists]. intros _.
      destruct Hloop as (md' & e' & Hin & Hf & _).
      right; right; right. by exists (md :: files), md', e'.
  - split; [intros _; right; by left | intros _; by eexists].
Qed.




(** X21. The posts of a collection made by [NewBlog] share one store: when
    the search lists the entries of the directory, the registry names of the
    posts are the names of these entries, in order, and the store of every
    post is the file [blog.sqlite] of the directory of the collection. *)
Theorem NewBlog_one_store (L : Libs) (E : Host) (directory : string)
    (opts : list post_option) (σ : World) (b : blog) (names : list string) :
  Forall (exported L) opts ->
  directory <> "" ->
  filepath_Glob E (filepath_Join directory "*.md") σ
    = Some (filepath_Join directory <$> names) ->
  Forall entry_name names ->
  NewBlog E directory opts σ = Made b ->
  GetName <$> GetBlogPosts b = names /\
  (forall p, p ∈ GetBlogPosts b ->
             store_of p = filepath_Join (GetDirectory b) "blog.sqlite").
Proof.
  intros Hex Hd Hglob Hnames Hb. unfold GetBlogPosts, GetDirectory.
  pose proof (NewBlog_paths L E _ _ _ _ Hex Hb) as Hpaths.
  rewrite Hglob in Hpaths. injection Hpaths as Hpaths.
  destruct (NewBlog_Made E _ _ _ _ Hb) as (_ & _ & _ & _ & _ & ->).
  split.
  - assert (Hbase : filepath_Base <$> (filepath_Join directory <$> names) = names).
    { clear Hglob Hpaths. induction Hnames as [|n names Hn _ IH]; [done|].
      rewrite !fmap_cons. by rewrite (filepath_Base_entry directory n Hn), IH. }
    rewrite Hpaths in Hbase. rewrite <- Hbase. unfold GetName.
    by rewrite <- list_fmap_compose.
  - intros p Hp. apply (list_elem_of_fmap_2 GetFilePath) in Hp. rewrite <- Hpaths in Hp.
    apply list_elem_of_fmap in Hp as (n & Hfp & Hn).
    rewrite Forall_forall in Hnames.
    unfold store_of, directory_of. rewrite Hfp.
    by rewrite (filepath_Dir_entry directory n Hd (Hnames n Hn)).
Qed.

Lemma NewBlog_one_store_witness :
  exists b,
    NewBlog toy_host "blog" [WithPublicationTracking] Toy.world = Made b /\
    GetName <$> GetBlogPosts b
      = ["001_a.md"; "002_b.md"; "003_c.md"; "004_d.md"; "005_e.md"] /\
    (forall p, p ∈ GetBlogPosts b ->
               store_of p = filepath_Join (GetDirectory b) "blog.sqlite").
Proof.
  eexists. split; [vm_compute; reflexivity|].
  apply (NewBlog_one_store Toy.libs toy_host "blog" [WithPublicationTracking] Toy.world).
  - constructor; [right; right; reflexivity | constructor].
  - discriminate.
  - vm_compute. reflexivity.
  - repeat (constructor; [split; [discriminate | reflexivity]|]). constructor.
  - vm_compute. reflexivity.
Defined.




(** X23. [Markdown] and [WriteHtml] read the same file and report a file
    that cannot be read with the same error: [WriteHtml] fails with the
    read error exactly when [Markdown] fails, and a [WriteHtml] that does
    not fail with it worked on the text [Markdown] returns. *)
Theorem Markdown_WriteHtml_read_error {W} `{Writer W} (L : Libs) (p : blogPost) (w : W)
    (σ : World) :
  match Markdown L p σ with
  | Err e => error_of L p w σ = Some e /\ snd (fst (WriteHtml L p w σ)) = w
  | Ok file =>
      os_ReadFile L (GetFilePath p) σ = Some file /\
      forall fp, error_of L p w σ <> Some (ErrReadFile fp)
  end.
Proof.
  unfold Markdown, GetFilePath. rewrite error_of_unfold. rewrite WriteHtml_unfold.
  destruct (os_ReadFile L (FilePath p) σ) as [file|]; [|done].
  split; [done|]. intros fp. simpl.
  destruct (extract L file p) as [[ex|] p1] eqn:Hex.
  { intros [= ->]. destruct (extract_error L file p _ _ Hex) as [|[[ty ?]|[|]]]; done. }
  destruct (date_view p σ) as [[dt|]|er] eqn:Hv; [| done |].
  - intros He. apply finish_error in He. by destruct He as [|[|[|]]].
  - intros [= ->]. apply date_view_error in Hv.
    by destruct Hv as [[? ?]|[[? ?]|[? ?]]].
Qed.
